(** * MyWorldBlog: the post controller (api/posts/posts.ctrl.js)

    A shallow embedding of the five request handlers [write], [list],
    [read], [remove], [update] and of the middleware [checkObjectId].

    - JavaScript values are the JSON fragment the handlers see
      ([jsval]); objects are finite maps from property names to values.
    - An expression that may throw evaluates to a [Completion].
    - A handler is an [Async] program: a tree whose nodes are the
      awaited store calls ([StoreOp]) and whose leaves are the reply.
      Running it against a store ([run]) gives the reply, the final
      store and the trace of store calls with their outcomes.
    - Joi, koa and mongoose are libraries; only the behaviour the
      handlers rely on is modelled, each piece where it is introduced. *)

From Stdlib Require Import ZArith QArith Qround String Ascii List Lia.
From stdpp Require Import base option list strings gmap pretty.

Set Warnings "-register-all".
Close Scope Q_scope.
Open Scope string_scope.
Open Scope Z_scope.

(** ** JavaScript values *)

(** Numbers: the integers and NaN.  [parseInt], [length], a document
    count and the page arithmetic stay inside this fragment. *)
Inductive jsnum : Type :=
| NaN
| Int (z : Z).

Inductive jsval : Type :=
| JUndefined
| JNull
| JBool (b : bool)
| JNum (n : jsnum)
| JStr (s : string)
| JArr (l : list jsval)
| JObj (o : gmap string jsval).

(** A plain object: request payloads, and documents read with [lean()]. *)
Abbreviation Doc := (gmap string jsval).

Inductive JsError : Type :=
| TypeError (msg : string)
| StoreError (msg : string).

(** The outcome of evaluating an expression: a value or a thrown error. *)
Inductive Completion (A : Type) : Type :=
| Normal (a : A)
| Throw (e : JsError).
Arguments Normal {A} a.
Arguments Throw {A} e.

#[global] Instance Completion_ret : MRet Completion := fun A a => Normal a.
#[global] Instance Completion_bind : MBind Completion := fun A B f c =>
  match c with
  | Normal a => f a
  | Throw e => Throw e
  end.

(** [o.p] on a plain object: [undefined] when the property is absent. *)
Definition get (o : Doc) (p : string) : jsval := default JUndefined (o !! p).

(** *** Number operators *)

Definition js_sub (a b : jsnum) : jsnum :=
  match a, b with
  | Int x, Int y => Int (x - y)
  | _, _ => NaN
  end.

Definition js_mul (a b : jsnum) : jsnum :=
  match a, b with
  | Int x, Int y => Int (x * y)
  | _, _ => NaN
  end.

(** [a < b] on numbers: false as soon as one side is NaN. *)
Definition num_lt (a b : jsnum) : bool :=
  match a, b with
  | Int x, Int y => x <? y
  | _, _ => false
  end.

(** [a / b] for integers, as an exact rational, and [Math.ceil]. *)
Definition js_div (a b : Z) : Q := Qdiv (inject_Z a) (inject_Z b).
Definition Math_ceil (q : Q) : Z := Qceiling q.

(** *** parseInt(string, radix) *)

Definition is_whitespace (c : ascii) : bool :=
  let n := nat_of_ascii c in
  ((9 <=? n)%nat && (n <=? 13)%nat) || (n =? 32)%nat.

Fixpoint trim_start (s : string) : string :=
  match s with
  | String c rest => if is_whitespace c then trim_start rest else s
  | EmptyString => s
  end.

(** The value of a digit character, when it is a digit in [radix]. *)
Definition digit_value (radix : Z) (c : ascii) : option Z :=
  let n := Z.of_nat (nat_of_ascii c) in
  let d :=
    if (48 <=? n) && (n <=? 57) then n - 48
    else if (97 <=? n) && (n <=? 122) then n - 87
    else if (65 <=? n) && (n <=? 90) then n - 55
    else 36 in
  if d <? radix then Some d else None.

(** The longest prefix of digits; [None] when there is no digit. *)
Fixpoint parse_digits (radix : Z) (s : string) (acc : option Z) : option Z :=
  match s with
  | String c rest =>
      match digit_value radix c with
      | Some d => parse_digits radix rest (Some (radix * default 0 acc + d))
      | None => acc
      end
  | EmptyString => acc
  end.

Definition parseInt (s : string) (radix : Z) : jsnum :=
  let s1 := trim_start s in
  let '(sign, s2) :=
    match s1 with
    | String "-" rest => (-1, rest)
    | String "+" rest => (1, rest)
    | _ => (1, s1)
    end in
  match parse_digits radix s2 None with
  | Some n => Int (sign * n)
  | None => NaN
  end.

(** *** Property access and calls *)

Definition clamp_index (len i : Z) : Z :=
  if i <? 0 then Z.max (len + i) 0 else Z.min i len.

(** [s.slice(from, to)] *)
Definition String_slice (s : string) (from to : Z) : string :=
  let len := Z.of_nat (String.length s) in
  let a := clamp_index len from in
  let b := clamp_index len to in
  substring (Z.to_nat a) (Z.to_nat (Z.max (b - a) 0)) s.

(** What a property read yields: a data value, or a method bound to
    its receiver.  Only a method can be called. *)
Inductive member : Type :=
| MValue (v : jsval)
| MSlice (receiver : string).

(** [v.p].  Reading a property of [undefined] or [null] throws. *)
Definition GetV (v : jsval) (p : string) : Completion member :=
  match v with
  | JUndefined | JNull => Throw (TypeError "Cannot read property")
  | JStr s =>
      if String.eqb p "length" then Normal (MValue (JNum (Int (Z.of_nat (String.length s)))))
      else if String.eqb p "slice" then Normal (MSlice s)
      else Normal (MValue JUndefined)
  | JArr l =>
      if String.eqb p "length" then Normal (MValue (JNum (Int (Z.of_nat (length l)))))
      else Normal (MValue JUndefined)
  | JObj o => Normal (MValue (get o p))
  | JBool _ | JNum _ => Normal (MValue JUndefined)
  end.

Definition ToInteger (v : jsval) : Z :=
  match v with
  | JNum (Int z) => z
  | JBool true => 1
  | _ => 0
  end.

(** [m(args)]: calling anything that is not a function throws. *)
Definition Call (m : member) (args : list jsval) : Completion jsval :=
  match m with
  | MSlice s =>
      let len := Z.of_nat (String.length s) in
      let from := ToInteger (default JUndefined (args !! 0%nat)) in
      let to :=
        match args !! 1%nat with
        | None | Some JUndefined => len
        | Some v => ToInteger v
        end in
      Normal (JStr (String_slice s from to))
  | MValue _ => Throw (TypeError "is not a function")
  end.

(** ToNumber and ToString on primitive operands.  The handlers only
    ever compare the result of a call and print the result of [slice];
    the conversions of arrays and objects are not spelled out. *)
Definition ToNumber (v : jsval) : jsnum :=
  match v with
  | JNum n => n
  | JNull | JBool false => Int 0
  | JBool true => Int 1
  | JStr s => if String.eqb (trim_start s) "" then Int 0 else parseInt s 10
  | JUndefined | JArr _ | JObj _ => NaN
  end.

Definition ToString (v : jsval) : string :=
  match v with
  | JStr s => s
  | JUndefined => "undefined"
  | JNull => "null"
  | JBool true => "true"
  | JBool false => "false"
  | JNum NaN => "NaN"
  | JNum (Int z) => pretty z
  | JArr _ => ""
  | JObj _ => "[object Object]"
  end.

(** [a < b] with a number on the right. *)
Definition js_lt (a : jsval) (b : jsnum) : bool := num_lt (ToNumber a) b.

(** [arr.map(f)] where [f] may throw: left to right, the first throw
    aborts the whole map. *)
Fixpoint Array_map {A B : Type} (f : A -> Completion B) (arr : list A)
  : Completion (list B) :=
  match arr with
  | [] => Normal []
  | x :: rest =>
      y ← f x;
      ys ← Array_map f rest;
      Normal (y :: ys)
  end.

(** ** Joi schemas

    [Joi.string()] accepts a non-empty string; [Joi.array().items(t)]
    accepts an array whose items all match [t]; [.required()] rejects
    an absent ([undefined]) value; [Joi.object().keys({...})] checks
    its keys in declaration order, then rejects any other key.
    Validation stops at the first error (abortEarly); among several
    unknown keys the one reported is the first in the order of the
    map. *)

Inductive JoiType : Type :=
| Joi_string
| Joi_array_items (item : JoiType).

Record JoiKey : Type := { key_type : JoiType; key_required : bool }.

Definition optional (t : JoiType) : JoiKey := {| key_type := t; key_required := false |}.
Definition required (t : JoiType) : JoiKey := {| key_type := t; key_required := true |}.

(** [Joi.object().keys({...})], keys in declaration order. *)
Definition JoiObject : Type := list (string * JoiKey).

Inductive ErrorType : Type :=
| any_required
| string_base
| string_empty
| array_base
| object_unknown.

(** [result.error]: the failing key, the index of the failing item for
    an error inside an array, and the kind of error. *)
Record ValidationError : Type :=
  { err_key : string; err_index : list nat; err_type : ErrorType }.

Fixpoint validate_items (check : jsval -> option (list nat * ErrorType))
    (items : list jsval) (i : nat) : option (list nat * ErrorType) :=
  match items with
  | [] => None
  | v :: rest =>
      match check v with
      | Some (path, e) => Some (i :: path, e)
      | None => validate_items check rest (S i)
      end
  end.

Fixpoint validate_value (t : JoiType) (v : jsval) : option (list nat * ErrorType) :=
  match t with
  | Joi_string =>
      match v with
      | JStr "" => Some ([], string_empty)
      | JStr _ => None
      | _ => Some ([], string_base)
      end
  | Joi_array_items item =>
      match v with
      | JArr l => validate_items (validate_value item) l 0%nat
      | _ => Some ([], array_base)
      end
  end.

Definition validate_key (value : Doc) (k : string) (r : JoiKey) : option ValidationError :=
  match get value k with
  | JUndefined =>
      if key_required r
      then Some {| err_key := k; err_index := []; err_type := any_required |}
      else None
  | v =>
      match validate_value (key_type r) v with
      | Some (path, e) => Some {| err_key := k; err_index := path; err_type := e |}
      | None => None
      end
  end.

Fixpoint validate_keys (schema : JoiObject) (value : Doc) : option ValidationError :=
  match schema with
  | [] => None
  | (k, r) :: rest =>
      match validate_key value k r with
      | Some e => Some e
      | None => validate_keys rest value
      end
  end.

Definition known_key (schema : JoiObject) (k : string) : bool :=
  existsb (String.eqb k) (map fst schema).

Definition unknown_keys (schema : JoiObject) (value : Doc) : list string :=
  filter (fun k => known_key schema k = false) (map fst (map_to_list value)).

(** [schema.validate(value).error] *)
Definition validate (schema : JoiObject) (value : Doc) : option ValidationError :=
  match validate_keys schema value with
  | Some e => Some e
  | None =>
      match unknown_keys schema value with
      | k :: _ => Some {| err_key := k; err_index := []; err_type := object_unknown |}
      | [] => None
      end
  end.

(** ** The store interface

    The calls the handlers await on the [Post] model.  Each settles to
    a value or is rejected with an error. *)

Record FindQuery : Type :=
  { sort_id : Z;        (* .sort({ _id: -1 }) *)
    limit : Z;          (* .limit(10) *)
    skip : jsnum;       (* .skip((page - 1) * 10) *)
    lean : bool }.      (* .lean() *)

Inductive StoreOp : Type -> Type :=
| save (fields : Doc) : StoreOp Doc
| find_exec (q : FindQuery) : StoreOp (list Doc)
| countDocuments : StoreOp Z
| findById (id : string) : StoreOp (option Doc)
| findByIdAndRemove (id : string) : StoreOp (option Doc)
| findByIdAndUpdate (id : string) (update : Doc) (new : bool) : StoreOp (option Doc).

Inductive Settled (A : Type) : Type :=
| Fulfilled (a : A)
| Rejected (e : JsError).
Arguments Fulfilled {A} a.
Arguments Rejected {A} e.

(** An async handler: the awaited store calls, then the result. *)
Inductive Async (R : Type) : Type :=
| Return (r : R)
| Await {A : Type} (op : StoreOp A) (k : Settled A -> Async R).
Arguments Return {R} r.
Arguments Await {R A} op k.

(** ** The koa context and the reply *)

Inductive Body : Type :=
| BodyPost (post : Doc)
| BodyPosts (posts : list Doc)
| BodyError (e : ValidationError).

Record Ctx : Type :=
  { status : option Z;            (* ctx.status, when set explicitly *)
    body : option Body;           (* ctx.body *)
    headers : gmap string Z }.    (* ctx.set(name, number) *)

Definition ctx0 : Ctx := {| status := None; body := None; headers := ∅ |}.

Definition set_status (st : Z) (c : Ctx) : Ctx :=
  {| status := Some st; body := body c; headers := headers c |}.
Definition set_body (b : Body) (c : Ctx) : Ctx :=
  {| status := status c; body := Some b; headers := headers c |}.
Definition set_header (name : string) (v : Z) (c : Ctx) : Ctx :=
  {| status := status c; body := body c; headers := <[name := v]> (headers c) |}.

(** A handler returns with its context filled in, or leaves through
    [ctx.throw(status, e)]. *)
Inductive Reply : Type :=
| Responded (c : Ctx)
| Threw (st : Z) (e : JsError).

(** The status code koa sends: the explicit one, else 200 once a body
    is set, else koa's default 404; for a thrown error, its status. *)
Definition http_status (r : Reply) : Z :=
  match r with
  | Threw st _ => st
  | Responded c =>
      match status c, body c with
      | Some st, _ => st
      | None, Some _ => 200
      | None, None => 404
      end
  end.

(** The body sent: none after [ctx.throw]. *)
Definition http_body (r : Reply) : option Body :=
  match r with
  | Threw _ _ => None
  | Responded c => body c
  end.

(** The response headers: koa drops them when the handler threw. *)
Definition http_headers (r : Reply) : gmap string Z :=
  match r with
  | Threw _ _ => ∅
  | Responded c => headers c
  end.

(** ** The handlers of posts.ctrl.js *)

Module PostsCtrl.

(** The [schema] of [write]. *)
Definition write_schema : JoiObject :=
  [ ("title", required Joi_string);
    ("body", required Joi_string);
    ("tags", required (Joi_array_items Joi_string)) ].

(** POST /api/posts *)
Definition write (request_body : Doc) : Async Reply :=
  let schema := write_schema in
  match validate schema request_body with
  | Some _ => Return (Responded (set_status 400 ctx0))
  | None =>
      let title := get request_body "title" in
      let body := get request_body "body" in
      let tags := get request_body "tags" in
      let post : Doc := {[ "title" := title; "body" := body; "tags" := tags ]} in
      Await (save post) (fun saved =>
        match saved with
        | Fulfilled post' => Return (Responded (set_body (BodyPost post') ctx0))
        | Rejected e => Return (Threw 500 e)
        end)
  end.

(** [ctx.query.page || '1']: an absent or empty parameter is falsy. *)
Definition or_default (v : option string) (d : string) : string :=
  match v with
  | None | Some "" => d
  | Some s => s
  end.

(** The conditional of the callback of [posts.map] in [list], given
    the value [len] of the call [post.body.length()]:
    [len < 200 ? post.body : `${post.body.slice(0, 200)}...`]. *)
Definition render_body (len post_body : jsval) : Completion jsval :=
  if js_lt len (Int 200)
  then Normal post_body
  else
    slice_member ← GetV post_body "slice";
    cut ← Call slice_member [JNum (Int 0); JNum (Int 200)];
    Normal (JStr (ToString cut ++ "...")).

(** The callback of [posts.map] in [list]:
    [post => ({ ...post, body: post.body.length() < 200 ? ... : ... })]. *)
Definition render_post (post : Doc) : Completion Doc :=
  let post_body := get post "body" in
  length_member ← GetV post_body "length";
  len ← Call length_member [];
  rendered ← render_body len post_body;
  Normal (<["body" := rendered]> post).

(** GET /api/posts *)
Definition list (query_page : option string) : Async Reply :=
  let page := parseInt (or_default query_page "1") 10 in
  if num_lt page (Int 1)
  then Return (Responded (set_status 400 ctx0))
  else
    Await (find_exec {| sort_id := -1; limit := 10;
                        skip := js_mul (js_sub page (Int 1)) (Int 10);
                        lean := true |})
      (fun found =>
        match found with
        | Rejected e => Return (Threw 500 e)
        | Fulfilled posts =>
            Await countDocuments (fun counted =>
              match counted with
              | Rejected e => Return (Threw 500 e)
              | Fulfilled postCount =>
                  let ctx1 := set_header "Last-Page" (Math_ceil (js_div postCount 10)) ctx0 in
                  match Array_map render_post posts with
                  | Throw e => Return (Threw 500 e)
                  | Normal rendered => Return (Responded (set_body (BodyPosts rendered) ctx1))
                  end
              end)
        end).

(** The middleware in front of [read], [remove] and [update].
    [ObjectId.isValid] is mongoose's format check, kept abstract. *)
Definition checkObjectId (ObjectId_isValid : string -> bool)
    (id : string) (next : Async Reply) : Async Reply :=
  if negb (ObjectId_isValid id)
  then Return (Responded (set_status 400 ctx0))
  else next.

(** The [schema] of [read]. *)
Definition read_schema : JoiObject :=
  [ ("title", optional Joi_string);
    ("body", optional Joi_string);
    ("tags", optional (Joi_array_items Joi_string)) ].

(** GET /api/posts/:id *)
Definition read (id : string) (request_body : Doc) : Async Reply :=
  let schema := read_schema in
  match validate schema request_body with
  | Some error => Return (Responded (set_body (BodyError error) (set_status 400 ctx0)))
  | None =>
      Await (findById id) (fun found =>
        match found with
        | Rejected e => Return (Threw 500 e)
        | Fulfilled None => Return (Responded (set_status 404 ctx0))
        | Fulfilled (Some post) => Return (Responded (set_body (BodyPost post) ctx0))
        end)
  end.

(** DELETE /api/posts/:id *)
Definition remove (id : string) : Async Reply :=
  Await (findByIdAndRemove id) (fun removed =>
    match removed with
    | Rejected e => Return (Threw 500 e)
    | Fulfilled _ => Return (Responded (set_status 204 ctx0))
    end).

(** PATCH /api/posts/:id *)
Definition update (id : string) (request_body : Doc) : Async Reply :=
  Await (findByIdAndUpdate id request_body true) (fun updated =>
    match updated with
    | Rejected e => Return (Threw 500 e)
    | Fulfilled None => Return (Responded (set_status 404 ctx0))
    | Fulfilled (Some post) => Return (Responded (set_body (BodyPost post) ctx0))
    end).

End PostsCtrl.

(** ** Running a handler against a store *)

(** One awaited store call with its outcome. *)
Inductive Event : Type :=
| EvSave (fields : Doc) (r : Settled Doc)
| EvFind (q : FindQuery) (r : Settled (list Doc))
| EvCount (r : Settled Z)
| EvFindById (id : string) (r : Settled (option Doc))
| EvFindByIdAndRemove (id : string) (r : Settled (option Doc))
| EvFindByIdAndUpdate (id : string) (update : Doc) (new : bool) (r : Settled (option Doc)).

Definition event_of {A : Type} (op : StoreOp A) : Settled A -> Event :=
  match op in StoreOp T return Settled T -> Event with
  | save fields => EvSave fields
  | find_exec q => EvFind q
  | countDocuments => EvCount
  | findById id => EvFindById id
  | findByIdAndRemove id => EvFindByIdAndRemove id
  | findByIdAndUpdate id upd new => EvFindByIdAndUpdate id upd new
  end.

Section Run.

(** Any store: a state and the effect of each call on it. *)
Context {S : Type}.
Variable exec : forall A : Type, StoreOp A -> S -> Settled A * S.

Fixpoint run {R : Type} (p : Async R) (s : S) : R * S * list Event :=
  match p with
  | Return r => (r, s, [])
  | Await op k =>
      let '(outcome, s1) := exec _ op s in
      let '(r, s2, trace) := run (k outcome) s1 in
      (r, s2, event_of op outcome :: trace)
  end.

Definition reply_of {R : Type} (p : Async R) (s : S) : R := (run p s).1.1.
Definition store_after {R : Type} (p : Async R) (s : S) : S := (run p s).1.2.
Definition trace_of {R : Type} (p : Async R) (s : S) : list Event := (run p s).2.

End Run.

(** ** A reference store *)

Module Mongo.

(** Modelled from the spec: the [Post] model (models/post) and the
    document store behind it are not part of the sources.  Section 4.4
    of the spec gives the interface: [create] persists the fields and
    returns the post with its assigned identifier; [findPage] returns
    the posts most recent first, after [offset], at most [limit];
    [count] is the number of stored posts; [findById] is empty for an
    unknown identifier; [deleteById] of an unknown identifier does
    nothing; [updateById] merges the patch into the stored record and
    returns the updated record, or nothing for an unknown identifier.
    The posts are kept oldest first, each under its identifier. *)
Record State : Type :=
  { docs : list (string * Doc);
    next_id : N }.

Definition hex_digit (n : N) : ascii :=
  ascii_of_N (if (n <? 10)%N then 48 + n else 87 + n)%N.

Fixpoint hex_digits (width : nat) (n : N) (acc : string) : string :=
  match width with
  | O => acc
  | Datatypes.S w => hex_digits w (n / 16)%N (String (hex_digit (n mod 16)%N) acc)
  end.

(** Modelled from the spec: identifiers are assigned by the store, a
    fixed-length hexadecimal token (section 4.2). *)
Definition ObjectId_hex (n : N) : string := hex_digits 24 n "".

Definition is_hex (c : ascii) : bool :=
  let n := nat_of_ascii c in
  (((48 <=? n) && (n <=? 57)) || ((97 <=? n) && (n <=? 102)) || ((65 <=? n) && (n <=? 70)))%nat.

Fixpoint all_hex (s : string) : bool :=
  match s with
  | String c rest => is_hex c && all_hex rest
  | EmptyString => true
  end.

(** Modelled from the spec: the format check of section 4.2, a
    fixed-length hexadecimal token. *)
Definition ObjectId_isValid (id : string) : bool :=
  (String.length id =? 24)%nat && all_hex id.

(** A stored post as a document: its fields and its [_id]. *)
Definition as_post (entry : string * Doc) : Doc := <["_id" := JStr entry.1]> entry.2.

Fixpoint lookup_doc (id : string) (l : list (string * Doc)) : option Doc :=
  match l with
  | [] => None
  | (i, d) :: rest => if String.eqb i id then Some d else lookup_doc id rest
  end.

Fixpoint replace_doc (id : string) (d' : Doc) (l : list (string * Doc)) : list (string * Doc) :=
  match l with
  | [] => []
  | (i, d) :: rest =>
      if String.eqb i id then (i, d') :: rest else (i, d) :: replace_doc id d' rest
  end.

Fixpoint delete_doc (id : string) (l : list (string * Doc)) : list (string * Doc) :=
  match l with
  | [] => []
  | (i, d) :: rest =>
      if String.eqb i id then rest else (i, d) :: delete_doc id rest
  end.

(** Modelled from the spec: [findPage(sort, limit, offset)].  An offset
    that is not a natural number is outside the interface and is
    rejected. *)
Definition find (q : FindQuery) (st : State) : Settled (list Doc) :=
  match skip q with
  | Int n =>
      if n <? 0 then Rejected (StoreError "skip")
      else
        let ordered := if sort_id q <? 0 then rev (docs st) else docs st in
        Fulfilled (map as_post (take (Z.to_nat (limit q)) (drop (Z.to_nat n) ordered)))
  | NaN => Rejected (StoreError "skip")
  end.

(** Modelled from the spec: [updateById(id, patch)] merges the fields
    of [patch] into the stored record; the fields of the patch win. *)
Definition merge (patch stored : Doc) : Doc := patch ∪ stored.

(** Modelled from the spec: the store operations of section 4.4. *)
Definition exec (A : Type) (op : StoreOp A) (st : State) : Settled A * State :=
  match op in StoreOp T return Settled T * State with
  | save fields =>
      let id := ObjectId_hex (next_id st) in
      (Fulfilled (as_post (id, fields)),
       {| docs := docs st ++ [(id, fields)]; next_id := N.succ (next_id st) |})
  | find_exec q => (find q st, st)
  | countDocuments => (Fulfilled (Z.of_nat (length (docs st))), st)
  | findById id => (Fulfilled (as_post <$> ((id,.) <$> lookup_doc id (docs st))), st)
  | findByIdAndRemove id =>
      (Fulfilled (as_post <$> ((id,.) <$> lookup_doc id (docs st))),
       {| docs := delete_doc id (docs st); next_id := next_id st |})
  | findByIdAndUpdate id patch new =>
      match lookup_doc id (docs st) with
      | None => (Fulfilled None, st)
      | Some stored =>
          let merged := merge patch stored in
          (Fulfilled (Some (as_post (id, if new then merged else stored))),
           {| docs := replace_doc id merged (docs st); next_id := next_id st |})
      end
  end.

End Mongo.

(** ** The routes *)

Module Router.

(** Modelled from the spec: the router (api/posts/index.js) is not
    part of the sources.  Section 4.5 of the spec and the comment above
    [checkObjectId] give the wiring: [write] and [list] are reached
    directly; [read], [remove] and [update] run behind
    [checkObjectId]. *)
Inductive Request : Type :=
| POST_posts (request_body : Doc)
| GET_posts (query_page : option string)
| GET_post (id : string) (request_body : Doc)
| DELETE_post (id : string)
| PATCH_post (id : string) (request_body : Doc).

(** The [:id] parameter of a request, when its route has one. *)
Definition params_id (req : Request) : option string :=
  match req with
  | POST_posts _ | GET_posts _ => None
  | GET_post id _ | DELETE_post id | PATCH_post id _ => Some id
  end.

(** Modelled from the spec: see [Request]. *)
Definition handle (ObjectId_isValid : string -> bool) (req : Request) : Async Reply :=
  match req with
  | POST_posts request_body => PostsCtrl.write request_body
  | GET_posts query_page => PostsCtrl.list query_page
  | GET_post id request_body =>
      PostsCtrl.checkObjectId ObjectId_isValid id (PostsCtrl.read id request_body)
  | DELETE_post id =>
      PostsCtrl.checkObjectId ObjectId_isValid id (PostsCtrl.remove id)
  | PATCH_post id request_body =>
      PostsCtrl.checkObjectId ObjectId_isValid id (PostsCtrl.update id request_body)
  end.

End Router.

(** ** What the specification words for the list view *)

(** The rendering of a body as the specification states it: more than
    200 characters are cut to the first 200 followed by the marker,
    anything else passes through. *)
Definition render_body_spec (text : string) : string :=
  if (200 <? String.length text)%nat then substring 0 200 text ++ "..." else text.

(** ** Vocabulary of the statements *)

(** A non-empty string. *)
Definition is_text (v : jsval) : bool :=
  match v with
  | JStr "" => false
  | JStr _ => true
  | _ => false
  end.

(** An array of non-empty strings. *)
Definition is_text_array (v : jsval) : bool :=
  match v with
  | JArr l => forallb is_text l
  | _ => false
  end.

(** The three fields of a post. *)
Definition post_keys : gset string := {[ "title"; "body"; "tags" ]}.

(** The store calls that only read. *)
Definition is_query (e : Event) : bool :=
  match e with
  | EvFind _ _ | EvCount _ | EvFindById _ _ => true
  | EvSave _ _ | EvFindByIdAndRemove _ _ | EvFindByIdAndUpdate _ _ _ _ => false
  end.

(** The error of a rejected store call. *)
Definition rejection (e : Event) : option JsError :=
  match e with
  | EvSave _ (Rejected err) | EvFind _ (Rejected err) | EvCount (Rejected err)
  | EvFindById _ (Rejected err) | EvFindByIdAndRemove _ (Rejected err)
  | EvFindByIdAndUpdate _ _ _ (Rejected err) => Some err
  | _ => None
  end.

(** The status codes each route can answer with. *)
Definition route_statuses (req : Router.Request) : list Z :=
  match req with
  | Router.POST_posts _ => [200; 400; 500]
  | Router.GET_posts _ => [200; 400; 500]
  | Router.GET_post _ _ => [200; 400; 404; 500]
  | Router.DELETE_post _ => [204; 400; 500]
  | Router.PATCH_post _ _ => [200; 400; 404; 500]
  end.

(** The identifiers of the stored posts, oldest first. *)
Definition stored_ids (st : Mongo.State) : list string := map fst (Mongo.docs st).

(** ** Sample data *)

Definition empty_store : Mongo.State := {| Mongo.docs := []; Mongo.next_id := 0 |}.

Definition hello_post : Doc :=
  {[ "title" := JStr "A"; "body" := JStr "hello"; "tags" := JArr [JStr "x"] ]}.

Definition hello_id : string := "000000000000000000000000".

(** The store after one post was created. *)
Definition one_post_store : Mongo.State :=
  {| Mongo.docs := [(hello_id, hello_post)]; Mongo.next_id := 1 |}.

(** The store after eleven posts were created through [write]. *)
Definition eleven_posts_store : Mongo.State :=
  Nat.iter 11 (store_after Mongo.exec (PostsCtrl.write hello_post)) empty_store.

(** * Properties *)

(** ** The list view *)

Lemma render_post_throws (post : Doc) :
  PostsCtrl.render_post post = Throw (TypeError "Cannot read property") \/
  PostsCtrl.render_post post = Throw (TypeError "is not a function").
Proof.
  unfold PostsCtrl.render_post.
  destruct (get post "body") as [| |b|n|s|l|o]; cbn; auto.
Qed.

Lemma Array_map_render_post (posts : list Doc) :
  Array_map PostsCtrl.render_post posts = Normal [] /\ posts = [] \/
  exists msg, Array_map PostsCtrl.render_post posts = Throw (TypeError msg).
Proof.
  destruct posts as [|post rest]; [left; split; reflexivity|right].
  simpl. destruct (render_post_throws post) as [-> | ->]; eexists; reflexivity.
Qed.

(** The three ways [list] can end: the page guard, a store failure or a
    thrown callback, or an empty page with the header set. *)
Lemma list_replies {S : Type} (exec : forall A, StoreOp A -> S -> Settled A * S)
    (s : S) (query_page : option string) :
  let reply := reply_of exec (PostsCtrl.list query_page) s in
  let trace := trace_of exec (PostsCtrl.list query_page) s in
  (reply = Responded (set_status 400 ctx0) /\ trace = []) \/
  (exists e, reply = Threw 500 e) \/
  (exists found postCount,
      trace = [EvFind found.1 (Fulfilled found.2); EvCount (Fulfilled postCount)] /\
      reply = Responded (set_body (BodyPosts [])
                (set_header "Last-Page" (Math_ceil (js_div postCount 10)) ctx0))).
Proof.
  unfold reply_of, trace_of, PostsCtrl.list.
  destruct (num_lt _ _); [left; split; reflexivity|right].
  cbn [run event_of].
  match goal with |- context [exec _ (find_exec ?q) s] =>
    destruct (exec _ (find_exec q) s) as [[posts|e] s1] eqn:Efind end;
    cbn [run event_of]; [|left; eexists; reflexivity].
  destruct (exec _ countDocuments s1) as [[postCount|e] s2] eqn:Ecount;
    cbn [run event_of]; [|left; eexists; reflexivity].
  destruct (Array_map_render_post posts) as [[-> ->] | [msg ->]]; cbn [run fst snd].
  - right. eexists (_, []), postCount. split; reflexivity.
  - left. eexists; reflexivity.
Qed.

Lemma substring_0_length (s : string) : substring 0 (String.length s) s = s.
Proof. induction s as [|c s IH]; cbn; [reflexivity|]. rewrite IH. reflexivity. Qed.

Lemma String_slice_0_200 (s : string) :
  (200 <= String.length s)%nat ->
  String_slice s 0 200 = substring 0 200 s.
Proof.
  intros Hlen. unfold String_slice, clamp_index. cbn [Z.ltb Z.compare].
  rewrite (Z.min_l 0) by lia. rewrite (Z.min_l 200) by lia.
  reflexivity.
Qed.

(** Had the length been read as a property, the conditional of the
    callback would render a body as the specification words it, except
    at exactly 200 characters: [len < 200] sends such a body to the
    truncating branch, which appends the marker to the whole body. *)
Lemma render_body_with_length (s : string) :
  PostsCtrl.render_body (JNum (Int (Z.of_nat (String.length s)))) (JStr s) =
  Normal (JStr (if (String.length s =? 200)%nat then s ++ "..." else render_body_spec s)).
Proof.
  unfold PostsCtrl.render_body, render_body_spec, js_lt.
  cbn [ToNumber num_lt].
  destruct (Z.ltb_spec (Z.of_nat (String.length s)) 200) as [Hlt|Hge].
  - destruct (Nat.eqb_spec (String.length s) 200) as [Heq|_]; [lia|].
    destruct (Nat.ltb_spec 200 (String.length s)); [lia|reflexivity].
  - cbn [GetV String.eqb Ascii.eqb Bool.eqb mbind Completion_bind Call lookup ToInteger
         default ToString].
    change (Normal (JStr (String_slice s 0 200 ++ "..."))
            = Normal (JStr (if (String.length s =? 200)%nat then s ++ "..."
                            else if (200 <? String.length s)%nat
                                 then substring 0 200 s ++ "..." else s))).
    rewrite String_slice_0_200 by lia.
    destruct (Nat.eqb_spec (String.length s) 200) as [Heq|Hne].
    + rewrite <- Heq at 1. rewrite substring_0_length. reflexivity.
    + destruct (Nat.ltb_spec 200 (String.length s)); [reflexivity|lia].
Qed.

(** [Math.ceil(postCount / 10)] is the least integer [n] with
    [postCount <= 10 * n]. *)
Lemma Math_ceil_div_10 (postCount : Z) :
  let n := Math_ceil (js_div postCount 10) in
  10 * (n - 1) < postCount <= 10 * n.
Proof.
  unfold Math_ceil, js_div, Qceiling, Qfloor, Qdiv, Qmult, Qinv, Qopp, inject_Z.
  cbn [Qnum Qden].
  rewrite Z.mul_1_r, Pos.mul_1_l.
  pose proof (Z.div_mod (- postCount) 10 ltac:(lia)) as Hdiv.
  pose proof (Z.mod_pos_bound (- postCount) 10 ltac:(lia)) as Hmod.
  cbn zeta. lia.
Qed.

(** C1 (code defect).  The callback of [posts.map] invokes
    [post.body.length] as a function, so rendering throws a TypeError
    for every post, whatever its body; a list request over a store
    holding one post with the five-character body "hello" ends as a
    500 without body, where the specification renders the body
    unmodified. *)
Theorem list_rendering_throws :
  (forall post : Doc, exists msg, PostsCtrl.render_post post = Throw (TypeError msg)) /\
  (let reply := reply_of Mongo.exec (PostsCtrl.list None) one_post_store in
   http_status reply = 500 /\ http_body reply = None) /\
  render_body_spec "hello" = "hello".
Proof.
  split; [|split; [split|]]; try reflexivity.
  intros post. destruct (render_post_throws post) as [-> | ->]; eexists; reflexivity.
Qed.

(** C4 (code defect).  Whatever the store and the page parameter, the
    body of a list reply never holds a post: a page on which the store
    finds posts ends in the TypeError of the rendering callback.  With
    one stored post and no page parameter the store is asked for the
    ten most recent posts from offset 0 and answers with that post, and
    the reply is a 500. *)
Theorem list_page_with_posts_fails :
  (forall (S : Type) (exec : forall A, StoreOp A -> S -> Settled A * S)
          (s : S) (query_page : option string),
      match http_body (reply_of exec (PostsCtrl.list query_page) s) with
      | Some (BodyPosts posts) => posts = []
      | Some _ => False
      | None => True
      end) /\
  trace_of Mongo.exec (PostsCtrl.list None) one_post_store =
    [ EvFind {| sort_id := -1; limit := 10; skip := Int 0; lean := true |}
        (Fulfilled [Mongo.as_post (hello_id, hello_post)]);
      EvCount (Fulfilled 1) ] /\
  http_status (reply_of Mongo.exec (PostsCtrl.list None) one_post_store) = 500.
Proof.
  split; [|split; reflexivity].
  intros S exec s query_page.
  destruct (list_replies exec s query_page) as [[-> _] | [[e ->] | (found & n & _ & ->)]];
    reflexivity.
Qed.

(** *** Paging: what [list] does before the rendering *)

Lemma list_default_page : PostsCtrl.list None = PostsCtrl.list (Some "1").
Proof. reflexivity. Qed.

Lemma list_page_below_1 {S : Type} (exec : forall A, StoreOp A -> S -> Settled A * S)
    (s : S) (query_page : option string) (page : Z) :
  parseInt (PostsCtrl.or_default query_page "1") 10 = Int page ->
  page < 1 ->
  run exec (PostsCtrl.list query_page) s = (Responded (set_status 400 ctx0), s, []).
Proof.
  intros Hpage Hlt. unfold PostsCtrl.list. rewrite Hpage. cbn [num_lt].
  destruct (Z.ltb_spec page 1); [reflexivity|lia].
Qed.

Lemma list_first_query {S : Type} (exec : forall A, StoreOp A -> S -> Settled A * S)
    (s : S) (query_page : option string) :
  let page := parseInt (PostsCtrl.or_default query_page "1") 10 in
  num_lt page (Int 1) = false ->
  exists r rest,
    trace_of exec (PostsCtrl.list query_page) s =
      EvFind {| sort_id := -1; limit := 10;
                skip := js_mul (js_sub page (Int 1)) (Int 10); lean := true |} r :: rest.
Proof.
  intros page Hge. unfold trace_of, PostsCtrl.list. fold page. rewrite Hge.
  cbn [run].
  match goal with |- context [exec _ (find_exec ?q) s] =>
    destruct (exec _ (find_exec q) s) as [found s1] end.
  match goal with |- context [run exec ?p s1] =>
    destruct (run exec p s1) as [[r s2] rest] end.
  eexists _, _. reflexivity.
Qed.

Lemma list_page_offset {S : Type} (exec : forall A, StoreOp A -> S -> Settled A * S)
    (s : S) (query_page : option string) (page : Z) :
  parseInt (PostsCtrl.or_default query_page "1") 10 = Int page ->
  1 <= page ->
  exists r rest,
    trace_of exec (PostsCtrl.list query_page) s =
      EvFind {| sort_id := -1; limit := 10; skip := Int ((page - 1) * 10); lean := true |} r
      :: rest.
Proof.
  intros Hpage Hge.
  pose proof (list_first_query exec s query_page) as H. cbn zeta in H.
  rewrite Hpage in H. apply H. cbn [num_lt]. apply Z.ltb_ge. lia.
Qed.

(** The reference store answers such a query with at most ten posts,
    the most recent first, after the offset. *)
Lemma Mongo_find_page (st : Mongo.State) (offset : Z) :
  0 <= offset ->
  exists posts,
    Mongo.find {| sort_id := -1; limit := 10; skip := Int offset; lean := true |} st
      = Fulfilled posts /\
    posts = map Mongo.as_post (take 10 (drop (Z.to_nat offset) (rev (Mongo.docs st)))) /\
    (length posts <= 10)%nat.
Proof.
  intros Hoff. unfold Mongo.find. cbn [skip sort_id limit].
  destruct (Z.ltb_spec offset 0); [lia|].
  eexists. split; [reflexivity|]. split; [reflexivity|].
  rewrite length_map, length_take. lia.
Qed.

(** C5.  When a list request succeeds (status 200), the store's count
    [postCount] was read and the Last-Page header is the ceiling of
    [postCount / 10]: the least integer [lastPage] with
    [postCount <= 10 * lastPage]; it is 0 when the count is 0. *)
Theorem list_last_page_is_ceiling
    (S : Type) (exec : forall A, StoreOp A -> S -> Settled A * S)
    (s : S) (query_page : option string) :
  http_status (reply_of exec (PostsCtrl.list query_page) s) = 200 ->
  exists postCount lastPage : Z,
    In (EvCount (Fulfilled postCount)) (trace_of exec (PostsCtrl.list query_page) s) /\
    http_headers (reply_of exec (PostsCtrl.list query_page) s) !! "Last-Page" = Some lastPage /\
    10 * (lastPage - 1) < postCount <= 10 * lastPage /\
    (postCount = 0 -> lastPage = 0).
Proof.
  intros Hok.
  destruct (list_replies exec s query_page)
    as [[Hr _] | [[e Hr] | (found & postCount & Ht & Hr)]];
    rewrite Hr in Hok |- *; try discriminate Hok.
  exists postCount, (Math_ceil (js_div postCount 10)).
  pose proof (Math_ceil_div_10 postCount) as Hceil. cbn zeta in Hceil.
  rewrite Ht. split; [|split; [|split]].
  - right. left. reflexivity.
  - cbn. apply lookup_insert_eq.
  - exact Hceil.
  - intros ->. reflexivity.
Qed.

Lemma list_last_page_is_ceiling_witness :
  http_status (reply_of Mongo.exec (PostsCtrl.list (Some "3")) eleven_posts_store) = 200 /\
  exists postCount lastPage : Z,
    In (EvCount (Fulfilled postCount))
       (trace_of Mongo.exec (PostsCtrl.list (Some "3")) eleven_posts_store) /\
    http_headers (reply_of Mongo.exec (PostsCtrl.list (Some "3")) eleven_posts_store)
      !! "Last-Page" = Some lastPage /\
    10 * (lastPage - 1) < postCount <= 10 * lastPage /\
    (postCount = 0 -> lastPage = 0).
Proof.
  split; [vm_compute; reflexivity|].
  apply (list_last_page_is_ceiling _ Mongo.exec eleven_posts_store (Some "3")).
  vm_compute. reflexivity.
Defined.

(** With eleven stored posts the last page is 2, and it is 0 for an
    empty store. *)
Example last_page_of_eleven :
  http_headers (reply_of Mongo.exec (PostsCtrl.list (Some "3")) eleven_posts_store)
    !! "Last-Page" = Some 2 /\
  http_headers (reply_of Mongo.exec (PostsCtrl.list None) empty_store)
    !! "Last-Page" = Some 0 /\
  http_status (reply_of Mongo.exec (PostsCtrl.list None) empty_store) = 200.
Proof. repeat split; vm_compute; reflexivity. Qed.

(** The scenario of the specification, as the code runs it: with
    eleven stored posts, pages 1 and 2 both end in a 500. *)
Example eleven_posts_pages :
  http_status (reply_of Mongo.exec (PostsCtrl.list (Some "1")) eleven_posts_store) = 500 /\
  http_status (reply_of Mongo.exec (PostsCtrl.list (Some "2")) eleven_posts_store) = 500.
Proof. split; vm_compute; reflexivity. Qed.

(** C9.  When the page parameter parses to NaN, which takes a present,
    non-empty parameter, the guard [page < 1] is false: the first thing
    the handler does is to ask the store for a page at offset NaN, and
    whatever the store answers the reply is not a 400. *)
Theorem list_NaN_page_reaches_store
    (S : Type) (exec : forall A, StoreOp A -> S -> Settled A * S)
    (s : S) (query_page : option string) :
  parseInt (PostsCtrl.or_default query_page "1") 10 = NaN ->
  (exists p, query_page = Some p /\ p <> "") /\
  (exists r rest,
      trace_of exec (PostsCtrl.list query_page) s =
        EvFind {| sort_id := -1; limit := 10; skip := NaN; lean := true |} r :: rest) /\
  http_status (reply_of exec (PostsCtrl.list query_page) s) <> 400.
Proof.
  intros Hnan.
  assert (Htrace : exists r rest,
      trace_of exec (PostsCtrl.list query_page) s =
        EvFind {| sort_id := -1; limit := 10; skip := NaN; lean := true |} r :: rest).
  { pose proof (list_first_query exec s query_page) as H. cbn zeta in H.
    rewrite Hnan in H. apply H. reflexivity. }
  split; [|split; [exact Htrace|]].
  - destruct query_page as [p|]; [|discriminate Hnan].
    exists p. split; [reflexivity|]. intros ->. discriminate Hnan.
  - destruct Htrace as (r & rest & Htrace).
    destruct (list_replies exec s query_page)
      as [[_ Hnil] | [[e ->] | (found & n & _ & ->)]]; [congruence|discriminate..].
Qed.

Lemma list_NaN_page_reaches_store_witness :
  parseInt (PostsCtrl.or_default (Some "abc") "1") 10 = NaN /\
  (exists r rest,
      trace_of Mongo.exec (PostsCtrl.list (Some "abc")) one_post_store =
        EvFind {| sort_id := -1; limit := 10; skip := NaN; lean := true |} r :: rest) /\
  http_status (reply_of Mongo.exec (PostsCtrl.list (Some "abc")) one_post_store) <> 400.
Proof.
  split; [reflexivity|].
  apply (list_NaN_page_reaches_store _ Mongo.exec one_post_store (Some "abc")).
  reflexivity.
Defined.

(** An empty page parameter is falsy and falls back to page 1. *)
Example list_empty_page_parameter :
  PostsCtrl.list (Some "") = PostsCtrl.list (Some "1").
Proof. reflexivity. Qed.

(** ** The identifier guard *)

Lemma checkObjectId_invalid (isValid : string -> bool) (id : string) (next : Async Reply) :
  isValid id = false ->
  PostsCtrl.checkObjectId isValid id next = Return (Responded (set_status 400 ctx0)).
Proof. intros H. unfold PostsCtrl.checkObjectId. rewrite H. reflexivity. Qed.

Lemma checkObjectId_valid (isValid : string -> bool) (id : string) (next : Async Reply) :
  isValid id = true ->
  PostsCtrl.checkObjectId isValid id next = next.
Proof. intros H. unfold PostsCtrl.checkObjectId. rewrite H. reflexivity. Qed.

(** C3.  A read, update or remove request whose identifier fails the
    format check is answered 400, and no store call is made: the trace
    is empty and the store is left as it was. *)
Theorem malformed_id_never_reaches_store
    (isValid : string -> bool)
    (S : Type) (exec : forall A, StoreOp A -> S -> Settled A * S)
    (s : S) (req : Router.Request) (id : string) :
  Router.params_id req = Some id ->
  isValid id = false ->
  http_status (reply_of exec (Router.handle isValid req) s) = 400 /\
  trace_of exec (Router.handle isValid req) s = [] /\
  store_after exec (Router.handle isValid req) s = s.
Proof.
  intros Hid Hbad.
  destruct req; cbn in Hid; try discriminate Hid; injection Hid as ->;
    unfold reply_of, trace_of, store_after; cbn [Router.handle];
    rewrite checkObjectId_invalid by exact Hbad; repeat split.
Qed.

Lemma malformed_id_never_reaches_store_witness :
  (Router.params_id (Router.GET_post "42" ∅) = Some "42" /\
   Mongo.ObjectId_isValid "42" = false /\
   http_status (reply_of Mongo.exec
     (Router.handle Mongo.ObjectId_isValid (Router.GET_post "42" ∅)) one_post_store) = 400) /\
  (http_status (reply_of Mongo.exec
     (Router.handle Mongo.ObjectId_isValid (Router.DELETE_post "xyz")) one_post_store) = 400 /\
   store_after Mongo.exec
     (Router.handle Mongo.ObjectId_isValid (Router.DELETE_post "xyz")) one_post_store
     = one_post_store) /\
  trace_of Mongo.exec
     (Router.handle Mongo.ObjectId_isValid
        (Router.PATCH_post "00000000000000000000000g" {[ "title" := JStr "new" ]}))
     one_post_store = [].
Proof.
  split; [|split].
  - split; [reflexivity|]. split; [reflexivity|].
    apply (malformed_id_never_reaches_store Mongo.ObjectId_isValid _ Mongo.exec
             one_post_store (Router.GET_post "42" ∅) "42"); reflexivity.
  - pose proof (malformed_id_never_reaches_store Mongo.ObjectId_isValid _ Mongo.exec
             one_post_store (Router.DELETE_post "xyz") "xyz" eq_refl eq_refl) as H.
    split; apply H.
  - apply (malformed_id_never_reaches_store Mongo.ObjectId_isValid _ Mongo.exec
             one_post_store
             (Router.PATCH_post "00000000000000000000000g" {[ "title" := JStr "new" ]})
             "00000000000000000000000g"); reflexivity.
Defined.

(** ** Payload validation *)

(** The schema of [read] is the one of [write] with every key optional. *)
Lemma read_schema_partial :
  PostsCtrl.read_schema =
  map (fun entry => (entry.1, optional (key_type entry.2))) PostsCtrl.write_schema.
Proof. reflexivity. Qed.

(** A required key that is absent fails the validation. *)
Lemma validate_keys_missing (schema : JoiObject) (value : Doc) (k : string) (t : JoiType) :
  In (k, required t) schema ->
  value !! k = None ->
  validate_keys schema value <> None.
Proof.
  intros Hin Hnone.
  induction schema as [|[k' r] rest IH]; [destruct Hin|].
  cbn [validate_keys].
  destruct (validate_key value k' r) as [e|] eqn:Hkey; [discriminate|].
  destruct Hin as [Heq|Hin]; [|apply IH, Hin].
  injection Heq as -> ->.
  unfold validate_key, get in Hkey. rewrite Hnone in Hkey. discriminate Hkey.
Qed.

Lemma write_schema_missing (payload : Doc) (k : string) :
  k = "title" \/ k = "body" \/ k = "tags" ->
  payload !! k = None ->
  validate PostsCtrl.write_schema payload <> None.
Proof.
  intros Hk Hnone. unfold validate.
  destruct (validate_keys PostsCtrl.write_schema payload) eqn:Hkeys; [discriminate|].
  exfalso. revert Hkeys.
  destruct Hk as [-> | [-> | ->]].
  - apply (validate_keys_missing _ _ "title" Joi_string); [|exact Hnone]. cbn. auto.
  - apply (validate_keys_missing _ _ "body" Joi_string); [|exact Hnone]. cbn. auto.
  - apply (validate_keys_missing _ _ "tags" (Joi_array_items Joi_string)); [|exact Hnone].
    cbn. auto.
Qed.

(** A key whose value is not of its type fails the validation, in the
    schema of [write] as in the schema of [read]. *)
Lemma validate_wrong_type (schema : JoiObject) (value : Doc) (k : string) (r : JoiKey)
    (v : jsval) :
  In (k, r) schema ->
  value !! k = Some v ->
  v <> JUndefined ->
  validate_value (key_type r) v <> None ->
  validate schema value <> None.
Proof.
  intros Hin Hv Hdef Hbad. unfold validate.
  destruct (validate_keys schema value) eqn:Hkeys; [discriminate|].
  exfalso. revert Hkeys.
  induction schema as [|[k' r'] rest IH]; [destruct Hin|].
  cbn [validate_keys].
  destruct (validate_key value k' r') as [e|] eqn:Hkey; [discriminate|].
  destruct Hin as [Heq|Hin]; [|apply IH, Hin].
  injection Heq as -> ->.
  unfold validate_key, get in Hkey. rewrite Hv in Hkey. cbn [default] in Hkey.
  destruct (validate_value (key_type r) v) as [[path e]|] eqn:Hval; [|congruence].
  destruct v; [congruence|..];
    cbv beta iota delta [id] in Hkey; rewrite Hval in Hkey; discriminate Hkey.
Qed.

(** C6.  A create request whose payload lacks [title], [body] or
    [tags], or fails the schema of [write] in any other way, is
    answered 400 without any store call: the store is the one before
    the request and its count of posts is what it was. *)
Theorem write_invalid_payload_rejected
    (S : Type) (exec : forall A, StoreOp A -> S -> Settled A * S)
    (s : S) (payload : Doc) :
  (payload !! "title" = None \/ payload !! "body" = None \/ payload !! "tags" = None \/
   validate PostsCtrl.write_schema payload <> None) ->
  http_status (reply_of exec (PostsCtrl.write payload) s) = 400 /\
  trace_of exec (PostsCtrl.write payload) s = [] /\
  store_after exec (PostsCtrl.write payload) s = s /\
  (exec _ countDocuments (store_after exec (PostsCtrl.write payload) s)).1
    = (exec _ countDocuments s).1.
Proof.
  intros Hbad.
  assert (Herr : validate PostsCtrl.write_schema payload <> None).
  { destruct Hbad as [H | [H | [H | H]]]; [| | |exact H].
    - apply (write_schema_missing payload "title"); auto.
    - apply (write_schema_missing payload "body"); auto.
    - apply (write_schema_missing payload "tags"); auto. }
  unfold reply_of, trace_of, store_after, PostsCtrl.write.
  destruct (validate PostsCtrl.write_schema payload) as [e|]; [|congruence].
  repeat split.
Qed.

Lemma write_invalid_payload_rejected_witness :
  let payload : Doc := {[ "title" := JStr "A"; "body" := JStr "B" ]} in
  payload !! "tags" = None /\
  http_status (reply_of Mongo.exec (PostsCtrl.write payload) one_post_store) = 400 /\
  trace_of Mongo.exec (PostsCtrl.write payload) one_post_store = [] /\
  store_after Mongo.exec (PostsCtrl.write payload) one_post_store = one_post_store /\
  (Mongo.exec _ countDocuments
     (store_after Mongo.exec (PostsCtrl.write payload) one_post_store)).1
    = (Mongo.exec _ countDocuments one_post_store).1.
Proof.
  intros payload. split; [reflexivity|].
  apply (write_invalid_payload_rejected _ Mongo.exec one_post_store payload).
  right. right. left. reflexivity.
Defined.

(** Payloads the schema of [write] rejects, and one it accepts. *)
Example write_schema_examples :
  validate PostsCtrl.write_schema {[ "title" := JNum (Int 1); "body" := JStr "B"; "tags" := JArr [] ]}
    = Some {| err_key := "title"; err_index := []; err_type := string_base |} /\
  validate PostsCtrl.write_schema {[ "title" := JStr "A"; "body" := JStr "B"; "tags" := JArr [JStr "x"; JNull] ]}
    = Some {| err_key := "tags"; err_index := [1%nat]; err_type := string_base |} /\
  validate PostsCtrl.write_schema {[ "title" := JStr "A"; "body" := JStr "B"; "tags" := JArr []; "views" := JNum (Int 1) ]}
    = Some {| err_key := "views"; err_index := []; err_type := object_unknown |} /\
  validate PostsCtrl.write_schema hello_post = None.
Proof. repeat split; vm_compute; reflexivity. Qed.

(** A valid create request stores the post and answers 200 with it. *)
Example write_hello :
  http_status (reply_of Mongo.exec (PostsCtrl.write hello_post) empty_store) = 200 /\
  http_body (reply_of Mongo.exec (PostsCtrl.write hello_post) empty_store)
    = Some (BodyPost (Mongo.as_post (hello_id, hello_post))) /\
  store_after Mongo.exec (PostsCtrl.write hello_post) empty_store = one_post_store.
Proof. repeat split; vm_compute; reflexivity. Qed.

(** ** Reading one post *)

(** C10.  [read] validates the request body against its schema, the
    schema of [write] with every key optional, before any store call:
    when the validation fails the reply is a 400 carrying the
    validation error, the trace is empty and the store untouched,
    whatever the identifier and whatever the store holds. *)
Theorem read_validates_request_body
    (S : Type) (exec : forall A, StoreOp A -> S -> Settled A * S)
    (s : S) (id : string) (payload : Doc) (error : ValidationError) :
  validate PostsCtrl.read_schema payload = Some error ->
  http_status (reply_of exec (PostsCtrl.read id payload) s) = 400 /\
  http_body (reply_of exec (PostsCtrl.read id payload) s) = Some (BodyError error) /\
  trace_of exec (PostsCtrl.read id payload) s = [] /\
  store_after exec (PostsCtrl.read id payload) s = s.
Proof.
  intros Herr.
  unfold reply_of, trace_of, store_after, PostsCtrl.read.
  rewrite Herr. repeat split.
Qed.

(** The post of [one_post_store] exists and its identifier is well
    formed, so that the route reaches [read]; a read of it with a
    number as [title] in the request body is answered 400. *)
Lemma read_validates_request_body_witness :
  let payload : Doc := {[ "title" := JNum (Int 3) ]} in
  let error := {| err_key := "title"; err_index := []; err_type := string_base |} in
  let request := Router.GET_post hello_id payload in
  Mongo.ObjectId_isValid hello_id = true /\
  Mongo.lookup_doc hello_id (Mongo.docs one_post_store) = Some hello_post /\
  validate PostsCtrl.read_schema payload = Some error /\
  Router.handle Mongo.ObjectId_isValid request = PostsCtrl.read hello_id payload /\
  http_status (reply_of Mongo.exec (PostsCtrl.read hello_id payload) one_post_store) = 400 /\
  http_body (reply_of Mongo.exec (PostsCtrl.read hello_id payload) one_post_store)
    = Some (BodyError error) /\
  trace_of Mongo.exec (PostsCtrl.read hello_id payload) one_post_store = [] /\
  store_after Mongo.exec (PostsCtrl.read hello_id payload) one_post_store = one_post_store.
Proof.
  intros payload error request.
  split; [reflexivity|]. split; [reflexivity|]. split; [reflexivity|].
  split; [reflexivity|].
  apply (read_validates_request_body _ Mongo.exec one_post_store hello_id payload error).
  reflexivity.
Defined.

(** With a request body that passes, [read] makes exactly one store
    call, [findById] on the identifier. *)
Lemma read_valid_body_calls_findById
    {S : Type} (exec : forall A, StoreOp A -> S -> Settled A * S)
    (s : S) (id : string) (payload : Doc) :
  validate PostsCtrl.read_schema payload = None ->
  exists r, trace_of exec (PostsCtrl.read id payload) s = [EvFindById id r].
Proof.
  intros Hok. unfold trace_of, PostsCtrl.read. rewrite Hok. cbn [run event_of].
  destruct (exec _ (findById id) s) as [[[post|]|e] s1]; eexists; reflexivity.
Qed.

(** C7.  For a read request with a well-formed identifier: when the
    store's [findById] returned no post the reply is a 404 without
    body, and when it returned a post the reply is a 200 with that post
    as body.  The call is the one on the identifier of the request. *)
Theorem read_maps_findById_result
    (isValid : string -> bool)
    (S : Type) (exec : forall A, StoreOp A -> S -> Settled A * S)
    (s : S) (id : string) (payload : Doc) (id' : string) (found : option Doc) :
  isValid id = true ->
  In (EvFindById id' (Fulfilled found))
     (trace_of exec (Router.handle isValid (Router.GET_post id payload)) s) ->
  let reply := reply_of exec (Router.handle isValid (Router.GET_post id payload)) s in
  id' = id /\
  match found with
  | None => http_status reply = 404 /\ http_body reply = None
  | Some post => http_status reply = 200 /\ http_body reply = Some (BodyPost post)
  end.
Proof.
  intros Hid. unfold reply_of, trace_of. cbn [Router.handle].
  rewrite checkObjectId_valid by exact Hid.
  unfold PostsCtrl.read.
  destruct (validate PostsCtrl.read_schema payload) as [error|]; [intros []|].
  cbn [run event_of].
  destruct (exec _ (findById id) s) as [[[post|]|e] s1]; cbn [run fst snd];
    intros [Hev|[]]; inversion Hev; subst; repeat split.
Qed.

Lemma read_maps_findById_result_witness :
  let missing_id := "0000000000000000000000ff" in
  (Mongo.ObjectId_isValid hello_id = true /\
   In (EvFindById hello_id (Fulfilled (Some (Mongo.as_post (hello_id, hello_post)))))
      (trace_of Mongo.exec
         (Router.handle Mongo.ObjectId_isValid (Router.GET_post hello_id ∅)) one_post_store) /\
   http_status (reply_of Mongo.exec
         (Router.handle Mongo.ObjectId_isValid (Router.GET_post hello_id ∅)) one_post_store)
     = 200 /\
   http_body (reply_of Mongo.exec
         (Router.handle Mongo.ObjectId_isValid (Router.GET_post hello_id ∅)) one_post_store)
     = Some (BodyPost (Mongo.as_post (hello_id, hello_post)))) /\
  (Mongo.ObjectId_isValid missing_id = true /\
   In (EvFindById missing_id (Fulfilled None))
      (trace_of Mongo.exec
         (Router.handle Mongo.ObjectId_isValid (Router.GET_post missing_id ∅)) one_post_store) /\
   http_status (reply_of Mongo.exec
         (Router.handle Mongo.ObjectId_isValid (Router.GET_post missing_id ∅)) one_post_store)
     = 404 /\
   http_body (reply_of Mongo.exec
         (Router.handle Mongo.ObjectId_isValid (Router.GET_post missing_id ∅)) one_post_store)
     = None).
Proof.
  intros missing_id.
  assert (Hin1 : In (EvFindById hello_id (Fulfilled (Some (Mongo.as_post (hello_id, hello_post)))))
      (trace_of Mongo.exec
         (Router.handle Mongo.ObjectId_isValid (Router.GET_post hello_id ∅)) one_post_store))
    by (left; reflexivity).
  assert (Hin2 : In (EvFindById missing_id (Fulfilled None))
      (trace_of Mongo.exec
         (Router.handle Mongo.ObjectId_isValid (Router.GET_post missing_id ∅)) one_post_store))
    by (left; reflexivity).
  split.
  - split; [reflexivity|]. split; [exact Hin1|].
    exact (proj2 (read_maps_findById_result Mongo.ObjectId_isValid _ Mongo.exec one_post_store
                    hello_id ∅ hello_id _ eq_refl Hin1)).
  - split; [reflexivity|]. split; [exact Hin2|].
    exact (proj2 (read_maps_findById_result Mongo.ObjectId_isValid _ Mongo.exec one_post_store
                    missing_id ∅ missing_id _ eq_refl Hin2)).
Defined.

(** ** Updating a post *)

(** [update] makes one store call whatever the payload, and never
    answers 400. *)
Lemma update_calls_store
    {S : Type} (exec : forall A, StoreOp A -> S -> Settled A * S)
    (s : S) (id : string) (payload : Doc) :
  exists r,
    trace_of exec (PostsCtrl.update id payload) s = [EvFindByIdAndUpdate id payload true r] /\
    http_status (reply_of exec (PostsCtrl.update id payload) s) <> 400.
Proof.
  unfold trace_of, reply_of, PostsCtrl.update. cbn [run event_of].
  destruct (exec _ (findByIdAndUpdate id payload true) s) as [[[post|]|e] s1];
    eexists; split; try reflexivity; discriminate.
Qed.

(** C2 (code defect).  [update] does not validate its payload: every
    update request with a well-formed identifier reaches the store's
    [findByIdAndUpdate] with the payload as it came and is never
    answered 400.  A payload whose [title] is a number, and one with a
    field outside title, body and tags, both fail the partial schema
    (the one [read] checks), and both are answered 200 and written to
    the stored post. *)
Theorem update_skips_validation :
  (forall (S : Type) (exec : forall A, StoreOp A -> S -> Settled A * S)
          (s : S) (id : string) (payload : Doc),
      exists r,
        trace_of exec (PostsCtrl.update id payload) s
          = [EvFindByIdAndUpdate id payload true r] /\
        http_status (reply_of exec (PostsCtrl.update id payload) s) <> 400) /\
  (let payload : Doc := {[ "title" := JNum (Int 123) ]} in
   let request := Router.PATCH_post hello_id payload in
   validate PostsCtrl.read_schema payload
     = Some {| err_key := "title"; err_index := []; err_type := string_base |} /\
   http_status (reply_of Mongo.exec (Router.handle Mongo.ObjectId_isValid request)
                  one_post_store) = 200 /\
   Mongo.lookup_doc hello_id
     (Mongo.docs (store_after Mongo.exec (Router.handle Mongo.ObjectId_isValid request)
                    one_post_store))
     = Some (<["title" := JNum (Int 123)]> hello_post)) /\
  (let payload : Doc := {[ "views" := JNum (Int 1) ]} in
   let request := Router.PATCH_post hello_id payload in
   validate PostsCtrl.read_schema payload
     = Some {| err_key := "views"; err_index := []; err_type := object_unknown |} /\
   http_status (reply_of Mongo.exec (Router.handle Mongo.ObjectId_isValid request)
                  one_post_store) = 200 /\
   Mongo.lookup_doc hello_id
     (Mongo.docs (store_after Mongo.exec (Router.handle Mongo.ObjectId_isValid request)
                    one_post_store))
     = Some (<["views" := JNum (Int 1)]> hello_post)).
Proof.
  split; [|split].
  - intros S exec s id payload. apply update_calls_store.
  - repeat split; vm_compute; reflexivity.
  - repeat split; vm_compute; reflexivity.
Qed.

Lemma lookup_replace_doc_eq (id : string) (d d' : Doc) (l : list (string * Doc)) :
  Mongo.lookup_doc id l = Some d ->
  Mongo.lookup_doc id (Mongo.replace_doc id d' l) = Some d'.
Proof.
  induction l as [|[i e] rest IH]; cbn [Mongo.lookup_doc Mongo.replace_doc]; [discriminate|].
  destruct (String.eqb i id) eqn:Heq; cbn [Mongo.lookup_doc]; rewrite Heq; auto.
Qed.

Lemma lookup_replace_doc_ne (id id' : string) (d' : Doc) (l : list (string * Doc)) :
  id' <> id ->
  Mongo.lookup_doc id' (Mongo.replace_doc id d' l) = Mongo.lookup_doc id' l.
Proof.
  intros Hne.
  induction l as [|[i e] rest IH]; cbn [Mongo.lookup_doc Mongo.replace_doc]; [reflexivity|].
  destruct (String.eqb i id) eqn:Heq; cbn [Mongo.lookup_doc].
  - apply String.eqb_eq in Heq. subst i.
    destruct (String.eqb id id') eqn:Heq'; [|reflexivity].
    apply String.eqb_eq in Heq'. congruence.
  - rewrite IH. reflexivity.
Qed.

Lemma length_replace_doc (id : string) (d' : Doc) (l : list (string * Doc)) :
  length (Mongo.replace_doc id d' l) = length l.
Proof.
  induction l as [|[i e] rest IH]; cbn [Mongo.replace_doc]; [reflexivity|].
  destruct (String.eqb i id); cbn [length]; congruence.
Qed.

(** C8.  On the reference store, an update of an existing post through
    the route leaves every field that the payload omits as it was
    stored and sets every field of the payload; the reply is a 200 with
    the updated post; the other posts and the number of posts are
    unchanged. *)
Theorem update_keeps_omitted_fields
    (isValid : string -> bool) (s : Mongo.State)
    (id : string) (patch stored : Doc) :
  isValid id = true ->
  Mongo.lookup_doc id (Mongo.docs s) = Some stored ->
  let request := Router.PATCH_post id patch in
  let reply := reply_of Mongo.exec (Router.handle isValid request) s in
  let s' := store_after Mongo.exec (Router.handle isValid request) s in
  exists stored' : Doc,
    Mongo.lookup_doc id (Mongo.docs s') = Some stored' /\
    (forall k, patch !! k = None -> stored' !! k = stored !! k) /\
    (forall k v, patch !! k = Some v -> stored' !! k = Some v) /\
    http_status reply = 200 /\
    http_body reply = Some (BodyPost (Mongo.as_post (id, stored'))) /\
    (forall id', id' <> id -> Mongo.lookup_doc id' (Mongo.docs s') = Mongo.lookup_doc id' (Mongo.docs s)) /\
    length (Mongo.docs s') = length (Mongo.docs s).
Proof.
  intros Hid Hstored request reply s'.
  unfold reply, s', reply_of, store_after, request. cbn [Router.handle].
  rewrite checkObjectId_valid by exact Hid.
  unfold PostsCtrl.update. cbn [run Mongo.exec]. rewrite Hstored. cbn [run fst snd Mongo.docs].
  exists (Mongo.merge patch stored). split; [|split; [|split; [|split; [|split; [|split]]]]].
  - apply (lookup_replace_doc_eq id stored). exact Hstored.
  - intros k Hk. unfold Mongo.merge. apply lookup_union_r. exact Hk.
  - intros k v Hk. unfold Mongo.merge. apply lookup_union_Some_l. exact Hk.
  - reflexivity.
  - reflexivity.
  - intros id' Hne. apply lookup_replace_doc_ne. exact Hne.
  - apply length_replace_doc.
Qed.

(** The example of the specification: the payload [{title: "new"}]
    changes the title and leaves [body] and [tags] as stored. *)
Lemma update_keeps_omitted_fields_witness :
  let patch : Doc := {[ "title" := JStr "new" ]} in
  let request := Router.PATCH_post hello_id patch in
  let s' := store_after Mongo.exec (Router.handle Mongo.ObjectId_isValid request)
              one_post_store in
  Mongo.ObjectId_isValid hello_id = true /\
  Mongo.lookup_doc hello_id (Mongo.docs one_post_store) = Some hello_post /\
  exists stored' : Doc,
    Mongo.lookup_doc hello_id (Mongo.docs s') = Some stored' /\
    stored' !! "title" = Some (JStr "new") /\
    stored' !! "body" = hello_post !! "body" /\
    stored' !! "tags" = hello_post !! "tags".
Proof.
  intros patch request s'.
  split; [reflexivity|]. split; [reflexivity|].
  destruct (update_keeps_omitted_fields Mongo.ObjectId_isValid one_post_store
              hello_id patch hello_post eq_refl eq_refl)
    as (stored' & Hlookup & Hkeep & Hset & _).
  exists stored'. split; [exact Hlookup|]. split; [|split].
  - apply Hset. reflexivity.
  - apply Hkeep. reflexivity.
  - apply Hkeep. reflexivity.
Defined.

(** The same request, evaluated. *)
Example update_title_only :
  let request := Router.PATCH_post hello_id {[ "title" := JStr "new" ]} in
  Mongo.docs (store_after Mongo.exec (Router.handle Mongo.ObjectId_isValid request)
                one_post_store)
  = [(hello_id,
      {[ "title" := JStr "new"; "body" := JStr "hello"; "tags" := JArr [JStr "x"] ]})].
Proof. vm_compute. reflexivity. Qed.

(** ** Removing a post *)

Example remove_then_read :
  let s' := store_after Mongo.exec
              (Router.handle Mongo.ObjectId_isValid (Router.DELETE_post hello_id))
              one_post_store in
  http_status (reply_of Mongo.exec
                 (Router.handle Mongo.ObjectId_isValid (Router.DELETE_post hello_id))
                 one_post_store) = 204 /\
  http_status (reply_of Mongo.exec
                 (Router.handle Mongo.ObjectId_isValid (Router.GET_post hello_id ∅)) s') = 404.
Proof. split; vm_compute; reflexivity. Qed.

(** * Further properties of the handlers *)

(** ** What the schemas accept *)

Lemma validate_value_string (v : jsval) :
  validate_value Joi_string v = None <-> is_text v = true.
Proof.
  destruct v as [| |b|n|s|l|o]; cbn; try (split; discriminate).
  destruct s; cbn; split; auto; discriminate.
Qed.

Lemma validate_items_None (check : jsval -> option (list nat * ErrorType))
    (items : list jsval) (i : nat) :
  validate_items check items i = None <-> Forall (fun v => check v = None) items.
Proof.
  revert i. induction items as [|v rest IH]; intros i; cbn [validate_items].
  - split; [constructor|reflexivity].
  - destruct (check v) as [[path e]|] eqn:Hv.
    + split; [discriminate|]. intros H. inversion H; congruence.
    + rewrite IH. split; [intros H; constructor; assumption|].
      intros H. inversion H; assumption.
Qed.

Lemma validate_value_string_array (v : jsval) :
  validate_value (Joi_array_items Joi_string) v = None <-> is_text_array v = true.
Proof.
  destruct v as [| |b|n|s|l|o]; cbn [validate_value is_text_array];
    try (split; discriminate).
  rewrite validate_items_None, forallb_forall, List.Forall_forall.
  split; intros H v Hv; apply validate_value_string, H, Hv.
Qed.

Lemma is_text_defined (v : jsval) : is_text v = true -> v <> JUndefined.
Proof. intros H ->. discriminate H. Qed.

Lemma is_text_array_defined (v : jsval) : is_text_array v = true -> v <> JUndefined.
Proof. intros H ->. discriminate H. Qed.

(** No key is unknown exactly when every key of the value is one of
    the schema. *)
Lemma unknown_keys_nil (schema : JoiObject) (value : Doc) :
  unknown_keys schema value = [] <->
  forall k, is_Some (value !! k) -> known_key schema k = true.
Proof.
  unfold unknown_keys. split.
  - intros Hnil k [v Hv].
    destruct (known_key schema k) eqn:Hk; [reflexivity|exfalso].
    apply (filter_nil_not_elem_of _ _ k Hnil Hk).
    apply list_elem_of_In, in_map_iff. exists (k, v). split; [reflexivity|].
    apply list_elem_of_In, elem_of_map_to_list, Hv.
  - intros Hall.
    destruct (filter _ _) as [|k rest] eqn:Hf; [reflexivity|exfalso].
    assert (Hin : k ∈ filter (fun k => known_key schema k = false)
                      (map fst (map_to_list value)))
      by (rewrite Hf; left).
    apply list_elem_of_filter in Hin as [Hunknown Hin].
    apply list_elem_of_In, in_map_iff in Hin as ([k' v] & <- & Hin).
    apply list_elem_of_In, elem_of_map_to_list in Hin.
    rewrite Hall in Hunknown by (eexists; exact Hin). discriminate.
Qed.

Lemma known_key_post_keys (k : string) :
  known_key PostsCtrl.write_schema k = true <-> k ∈ post_keys.
Proof.
  unfold known_key, post_keys. cbn [PostsCtrl.write_schema map fst existsb].
  rewrite !orb_true_iff, !String.eqb_eq, !elem_of_union, !elem_of_singleton.
  intuition congruence.
Qed.

Lemma dom_post_keys (value : Doc) :
  (forall k, is_Some (value !! k) -> known_key PostsCtrl.write_schema k = true) <->
  dom value ⊆ post_keys.
Proof.
  split.
  - intros H k Hk. apply known_key_post_keys, H, elem_of_dom, Hk.
  - intros H k Hk. apply known_key_post_keys, H, elem_of_dom, Hk.
Qed.

Lemma validate_key_required (value : Doc) (k : string) (t : JoiType) :
  validate_key value k (required t) = None <->
  get value k <> JUndefined /\ validate_value t (get value k) = None.
Proof.
  unfold validate_key. cbn [key_required key_type required].
  destruct (get value k) as [| |b|n|s|l|o] eqn:Hget.
  1: split; [discriminate|intros [H _]; congruence].
  all: match goal with |- context [validate_value ?t' ?v] =>
         destruct (validate_value t' v) as [[path e]|] end.
  all: split; [intros H; first [discriminate H | split; [discriminate | reflexivity]]
              |intros [_ H]; first [discriminate H | reflexivity]].
Qed.

Lemma validate_key_optional (value : Doc) (k : string) (t : JoiType) :
  validate_key value k (optional t) = None <->
  get value k = JUndefined \/ validate_value t (get value k) = None.
Proof.
  unfold validate_key. cbn [key_required key_type optional].
  destruct (get value k) as [| |b|n|s|l|o] eqn:Hget.
  1: split; auto.
  all: match goal with |- context [validate_value ?t' ?v] =>
         destruct (validate_value t' v) as [[path e]|] end.
  all: split; [intros H; first [discriminate H | right; reflexivity]
              |intros [H | H]; first [discriminate H | reflexivity]].
Qed.

Lemma validate_None (schema : JoiObject) (value : Doc) :
  validate schema value = None <->
  validate_keys schema value = None /\ unknown_keys schema value = [].
Proof.
  unfold validate.
  destruct (validate_keys schema value) as [e|]; [split; [discriminate|intros [H _]; discriminate]|].
  destruct (unknown_keys schema value) as [|k rest]; split; auto; try discriminate.
  intros [_ H]. discriminate.
Qed.

(** X1.  [write] accepts a payload exactly when [title] and [body] are
    non-empty strings, [tags] is an array of non-empty strings, and the
    payload has no other field. *)
Theorem write_schema_accepts (payload : Doc) :
  validate PostsCtrl.write_schema payload = None <->
  is_text (get payload "title") = true /\
  is_text (get payload "body") = true /\
  is_text_array (get payload "tags") = true /\
  dom payload ⊆ post_keys.
Proof.
  rewrite validate_None, unknown_keys_nil, dom_post_keys.
  cbn [PostsCtrl.write_schema validate_keys].
  split.
  - intros [Hkeys Hdom].
    destruct (validate_key payload "title" _) eqn:Htitle; [discriminate|].
    destruct (validate_key payload "body" _) eqn:Hbody; [discriminate|].
    destruct (validate_key payload "tags" _) eqn:Htags; [discriminate|].
    apply validate_key_required in Htitle as [_ Htitle], Hbody as [_ Hbody],
      Htags as [_ Htags].
    apply validate_value_string in Htitle, Hbody.
    apply validate_value_string_array in Htags. auto.
  - intros (Htitle & Hbody & Htags & Hdom). split; [|exact Hdom].
    assert (H1 : validate_key payload "title" (required Joi_string) = None).
    { apply validate_key_required. split; [apply is_text_defined, Htitle|].
      apply validate_value_string, Htitle. }
    assert (H2 : validate_key payload "body" (required Joi_string) = None).
    { apply validate_key_required. split; [apply is_text_defined, Hbody|].
      apply validate_value_string, Hbody. }
    assert (H3 : validate_key payload "tags" (required (Joi_array_items Joi_string)) = None).
    { apply validate_key_required. split; [apply is_text_array_defined, Htags|].
      apply validate_value_string_array, Htags. }
    rewrite H1, H2, H3. reflexivity.
Qed.

(** X2.  [read] accepts a request body exactly when each of [title],
    [body] and [tags] is absent or of its type and the body has no
    other field; in particular it accepts the empty body. *)
Theorem read_schema_accepts (payload : Doc) :
  validate PostsCtrl.read_schema payload = None <->
  (get payload "title" = JUndefined \/ is_text (get payload "title") = true) /\
  (get payload "body" = JUndefined \/ is_text (get payload "body") = true) /\
  (get payload "tags" = JUndefined \/ is_text_array (get payload "tags") = true) /\
  dom payload ⊆ post_keys.
Proof.
  rewrite validate_None, unknown_keys_nil.
  change (known_key PostsCtrl.read_schema) with (known_key PostsCtrl.write_schema).
  rewrite dom_post_keys.
  cbn [PostsCtrl.read_schema validate_keys].
  rewrite <- !validate_value_string, <- validate_value_string_array,
    <- !validate_key_optional.
  split.
  - intros [Hkeys Hdom].
    destruct (validate_key payload "title" _) eqn:Htitle; [discriminate|].
    destruct (validate_key payload "body" _) eqn:Hbody; [discriminate|].
    destruct (validate_key payload "tags" _) eqn:Htags; [discriminate|].
    auto.
  - intros (-> & -> & -> & Hdom). auto.
Qed.

(** ** Creating a post *)

(** A payload that [write] accepts is the document it builds. *)
Lemma write_post_is_payload (payload : Doc) :
  validate PostsCtrl.write_schema payload = None ->
  ({[ "title" := get payload "title"; "body" := get payload "body";
      "tags" := get payload "tags" ]} : Doc) = payload.
Proof.
  intros Hok.
  apply validate_None in Hok as [Hkeys Hdom].
  rewrite unknown_keys_nil, dom_post_keys in Hdom.
  cbn [PostsCtrl.write_schema validate_keys] in Hkeys.
  destruct (validate_key payload "title" _) eqn:Htitle; [discriminate|].
  destruct (validate_key payload "body" _) eqn:Hbody; [discriminate|].
  destruct (validate_key payload "tags" _) eqn:Htags; [discriminate|].
  apply validate_key_required in Htitle as [Htitle _], Hbody as [Hbody _],
    Htags as [Htags _].
  assert (Hget : forall k v, get payload k = v -> v <> JUndefined -> payload !! k = Some v).
  { intros k v Hk Hv. unfold get in Hk. destruct (payload !! k); cbn in Hk; congruence. }
  apply map_eq. intros k.
  destruct (decide (k = "title")) as [->|Hn1];
    [rewrite lookup_insert_eq; symmetry; apply Hget; auto|rewrite lookup_insert_ne by auto].
  destruct (decide (k = "body")) as [->|Hn2];
    [rewrite lookup_insert_eq; symmetry; apply Hget; auto|rewrite lookup_insert_ne by auto].
  destruct (decide (k = "tags")) as [->|Hn3];
    [rewrite lookup_singleton_eq; symmetry; apply Hget; auto
    |rewrite lookup_singleton_ne by auto].
  symmetry. apply not_elem_of_dom. intros Hk. apply Hdom in Hk.
  unfold post_keys in Hk. rewrite !elem_of_union, !elem_of_singleton in Hk.
  intuition congruence.
Qed.

(** X3.  With an accepted payload [write] makes exactly one store
    call, [save] of the payload itself, nothing added and nothing
    dropped; when the call is fulfilled the reply is a 200 with the
    saved post, and when it is rejected the handler throws a 500 with
    the store's error. *)
Theorem write_saves_payload
    (S : Type) (exec : forall A, StoreOp A -> S -> Settled A * S)
    (s : S) (payload : Doc) :
  validate PostsCtrl.write_schema payload = None ->
  exists outcome,
    trace_of exec (PostsCtrl.write payload) s = [EvSave payload outcome] /\
    match outcome with
    | Fulfilled post =>
        reply_of exec (PostsCtrl.write payload) s = Responded (set_body (BodyPost post) ctx0) /\
        http_status (reply_of exec (PostsCtrl.write payload) s) = 200
    | Rejected e => reply_of exec (PostsCtrl.write payload) s = Threw 500 e
    end.
Proof.
  intros Hok. unfold trace_of, reply_of, PostsCtrl.write. rewrite Hok.
  rewrite (write_post_is_payload payload Hok).
  cbn [run event_of].
  destruct (exec _ (save payload) s) as [[post|e] s1]; cbn [run fst snd];
    eexists; split; try reflexivity. split; reflexivity.
Qed.

Lemma write_saves_payload_witness :
  validate PostsCtrl.write_schema hello_post = None /\
  exists outcome,
    trace_of Mongo.exec (PostsCtrl.write hello_post) empty_store
      = [EvSave hello_post outcome] /\
    match outcome with
    | Fulfilled post =>
        reply_of Mongo.exec (PostsCtrl.write hello_post) empty_store
          = Responded (set_body (BodyPost post) ctx0) /\
        http_status (reply_of Mongo.exec (PostsCtrl.write hello_post) empty_store) = 200
    | Rejected e => reply_of Mongo.exec (PostsCtrl.write hello_post) empty_store = Threw 500 e
    end.
Proof.
  split; [reflexivity|].
  apply (write_saves_payload _ Mongo.exec empty_store hello_post). reflexivity.
Defined.

(** ** Listing posts *)

(** X4.  [list] answers 400 exactly when the page parameter, or "1"
    in its place when it is absent or empty, parses to an integer
    below 1; it then makes no store call.  A parameter that does not
    parse at all is not rejected. *)
Theorem list_rejects_exactly_below_1
    (S : Type) (exec : forall A, StoreOp A -> S -> Settled A * S)
    (s : S) (query_page : option string) :
  (http_status (reply_of exec (PostsCtrl.list query_page) s) = 400 <->
   exists page, parseInt (PostsCtrl.or_default query_page "1") 10 = Int page /\ page < 1) /\
  (http_status (reply_of exec (PostsCtrl.list query_page) s) = 400 ->
   trace_of exec (PostsCtrl.list query_page) s = [] /\
   store_after exec (PostsCtrl.list query_page) s = s).
Proof.
  assert (Hguard : num_lt (parseInt (PostsCtrl.or_default query_page "1") 10) (Int 1) = true <->
          exists page, parseInt (PostsCtrl.or_default query_page "1") 10 = Int page /\ page < 1).
  { destruct (parseInt _ 10) as [|page]; cbn [num_lt].
    - split; [discriminate|]. intros (page & H & _). discriminate H.
    - rewrite Z.ltb_lt. split; [eauto|]. intros (page' & H & Hlt). congruence. }
  destruct (num_lt (parseInt (PostsCtrl.or_default query_page "1") 10) (Int 1)) eqn:Hlt.
  - assert (Hrun : run exec (PostsCtrl.list query_page) s
                   = (Responded (set_status 400 ctx0), s, [])).
    { unfold PostsCtrl.list. rewrite Hlt. reflexivity. }
    unfold reply_of, trace_of, store_after. rewrite Hrun. cbn.
    split; [|auto]. split; [intros _; apply Hguard; reflexivity|reflexivity].
  - assert (Hnot : http_status (reply_of exec (PostsCtrl.list query_page) s) <> 400).
    { destruct (list_first_query exec s query_page Hlt) as (r & rest & Htrace).
      destruct (list_replies exec s query_page)
        as [[_ Hnil] | [[e ->] | (found & n & _ & ->)]]; [congruence|discriminate..]. }
    split; [|intros H; contradiction].
    split; [intros H; contradiction|]. intros H. apply Hguard in H. discriminate H.
Qed.

(** X5.  Past the page guard, [list] first asks the store for the
    page: sorted by [_id] descending, ten posts, skipping
    [(page - 1) * 10], lean.  A rejected query ends the request as a
    500 with the store's error and the count is never asked; otherwise
    the count is asked next, and a rejected count ends the request the
    same way; with both fulfilled the reply is a 200 with an empty array
    for an empty page, and a 500 with a TypeError for any other. *)
Theorem list_store_calls
    (S : Type) (exec : forall A, StoreOp A -> S -> Settled A * S)
    (s : S) (query_page : option string) :
  let page := parseInt (PostsCtrl.or_default query_page "1") 10 in
  let query := {| sort_id := -1; limit := 10;
                  skip := js_mul (js_sub page (Int 1)) (Int 10); lean := true |} in
  let reply := reply_of exec (PostsCtrl.list query_page) s in
  let trace := trace_of exec (PostsCtrl.list query_page) s in
  num_lt page (Int 1) = false ->
  (exists e, trace = [EvFind query (Rejected e)] /\ reply = Threw 500 e) \/
  (exists posts e,
      trace = [EvFind query (Fulfilled posts); EvCount (Rejected e)] /\ reply = Threw 500 e) \/
  (exists postCount,
      trace = [EvFind query (Fulfilled []); EvCount (Fulfilled postCount)] /\
      http_status reply = 200 /\ http_body reply = Some (BodyPosts [])) \/
  (exists posts postCount msg,
      posts <> [] /\
      trace = [EvFind query (Fulfilled posts); EvCount (Fulfilled postCount)] /\
      reply = Threw 500 (TypeError msg)).
Proof.
  intros page query reply trace Hge.
  unfold reply, trace, reply_of, trace_of, PostsCtrl.list. fold page. rewrite Hge.
  fold query. cbn [run event_of].
  destruct (exec _ (find_exec query) s) as [[posts|e] s1]; cbn [run event_of fst snd];
    [|left; eexists; split; reflexivity].
  right.
  destruct (exec _ countDocuments s1) as [[postCount|e] s2]; cbn [run event_of fst snd];
    [|left; eexists _, _; split; reflexivity].
  right.
  destruct (Array_map_render_post posts) as [[-> ->] | [msg Hthrow]].
  - left. exists postCount. repeat split.
  - right. exists posts, postCount, msg. rewrite Hthrow. cbn [run fst snd].
    split; [|split; reflexivity].
    intros ->. discriminate Hthrow.
Qed.

Lemma list_store_calls_witness :
  let query := {| sort_id := -1; limit := 10; skip := Int 10; lean := true |} in
  let reply := reply_of Mongo.exec (PostsCtrl.list (Some "2")) eleven_posts_store in
  let trace := trace_of Mongo.exec (PostsCtrl.list (Some "2")) eleven_posts_store in
  num_lt (parseInt (PostsCtrl.or_default (Some "2") "1") 10) (Int 1) = false /\
  ((exists e, trace = [EvFind query (Rejected e)] /\ reply = Threw 500 e) \/
   (exists posts e,
      trace = [EvFind query (Fulfilled posts); EvCount (Rejected e)] /\ reply = Threw 500 e) \/
   (exists postCount,
      trace = [EvFind query (Fulfilled []); EvCount (Fulfilled postCount)] /\
      http_status reply = 200 /\ http_body reply = Some (BodyPosts [])) \/
   (exists posts postCount msg,
      posts <> [] /\
      trace = [EvFind query (Fulfilled posts); EvCount (Fulfilled postCount)] /\
      reply = Threw 500 (TypeError msg))).
Proof.
  intros query reply trace. split; [reflexivity|].
  apply (list_store_calls _ Mongo.exec eleven_posts_store (Some "2")). reflexivity.
Defined.

(** The shape of a run of [list]. *)
Lemma list_runs {S : Type} (exec : forall A, StoreOp A -> S -> Settled A * S)
    (s : S) (query_page : option string) :
  let reply := reply_of exec (PostsCtrl.list query_page) s in
  let trace := trace_of exec (PostsCtrl.list query_page) s in
  (reply = Responded (set_status 400 ctx0) /\ trace = []) \/
  (exists query e, trace = [EvFind query (Rejected e)] /\ reply = Threw 500 e) \/
  (exists query posts e,
      trace = [EvFind query (Fulfilled posts); EvCount (Rejected e)] /\ reply = Threw 500 e) \/
  (exists query postCount,
      trace = [EvFind query (Fulfilled []); EvCount (Fulfilled postCount)] /\
      http_status reply = 200) \/
  (exists query posts postCount msg,
      posts <> [] /\
      trace = [EvFind query (Fulfilled posts); EvCount (Fulfilled postCount)] /\
      reply = Threw 500 (TypeError msg)).
Proof.
  intros reply trace.
  unfold reply, trace, reply_of, trace_of, PostsCtrl.list.
  destruct (num_lt _ _); [left; split; reflexivity|right].
  cbn [run event_of].
  match goal with |- context [exec _ (find_exec ?q) s] =>
    destruct (exec _ (find_exec q) s) as [[posts|e] s1] end;
    cbn [run event_of fst snd]; [|left; eexists _, _; split; reflexivity].
  right.
  destruct (exec _ countDocuments s1) as [[postCount|e] s2]; cbn [run event_of fst snd];
    [|left; eexists _, _, _; split; reflexivity].
  right.
  destruct (Array_map_render_post posts) as [[-> ->] | [msg Hthrow]].
  - left. eexists _, postCount. split; reflexivity.
  - right. eexists _, posts, postCount, msg. rewrite Hthrow. cbn [run fst snd].
    split; [|split; reflexivity].
    intros ->. discriminate Hthrow.
Qed.

(** X6.  [list] answers 200 exactly when the store found no post on
    the page and gave its count; the body is then the empty array. *)
Theorem list_ok_iff_empty_page
    (S : Type) (exec : forall A, StoreOp A -> S -> Settled A * S)
    (s : S) (query_page : option string) :
  http_status (reply_of exec (PostsCtrl.list query_page) s) = 200 <->
  exists query postCount,
    trace_of exec (PostsCtrl.list query_page) s
      = [EvFind query (Fulfilled []); EvCount (Fulfilled postCount)].
Proof.
  destruct (list_runs exec s query_page)
    as [[-> ->] | [(q & e & -> & ->) | [(q & posts & e & -> & ->)
       | [(q & n & -> & Hst) | (q & posts & n & msg & Hne & -> & ->)]]]].
  - split; [discriminate|]. intros (q & n & H). discriminate H.
  - split; [discriminate|]. intros (q' & n & H). discriminate H.
  - split; [discriminate|]. intros (q' & n & H). discriminate H.
  - split; [eauto|]. intros _. exact Hst.
  - split; [discriminate|]. intros (q' & n' & H). congruence.
Qed.

(** ** Removing and updating *)

(** X7.  [remove] answers 204 without body whenever the store call is
    fulfilled, whether a post was removed or none was found: it never
    answers 404. *)
Theorem remove_answers_204
    (S : Type) (exec : forall A, StoreOp A -> S -> Settled A * S)
    (s : S) (id id' : string) (removed : option Doc) :
  In (EvFindByIdAndRemove id' (Fulfilled removed)) (trace_of exec (PostsCtrl.remove id) s) ->
  id' = id /\
  http_status (reply_of exec (PostsCtrl.remove id) s) = 204 /\
  http_body (reply_of exec (PostsCtrl.remove id) s) = None.
Proof.
  unfold trace_of, reply_of, PostsCtrl.remove. cbn [run event_of].
  destruct (exec _ (findByIdAndRemove id) s) as [[r|e] s1]; cbn [run fst snd];
    intros [Hev|[]]; inversion Hev; subst; repeat split.
Qed.

Lemma remove_answers_204_witness :
  let missing_id := "0000000000000000000000ff" in
  In (EvFindByIdAndRemove missing_id (Fulfilled None))
     (trace_of Mongo.exec (PostsCtrl.remove missing_id) one_post_store) /\
  http_status (reply_of Mongo.exec (PostsCtrl.remove missing_id) one_post_store) = 204 /\
  http_body (reply_of Mongo.exec (PostsCtrl.remove missing_id) one_post_store) = None.
Proof.
  intros missing_id.
  assert (Hin : In (EvFindByIdAndRemove missing_id (Fulfilled None))
     (trace_of Mongo.exec (PostsCtrl.remove missing_id) one_post_store))
    by (left; reflexivity).
  split; [exact Hin|].
  exact (proj2 (remove_answers_204 _ Mongo.exec one_post_store missing_id missing_id None Hin)).
Defined.

(** X8.  [update] maps the result of the store call: no post gives a
    404 without body, a post gives a 200 with that post as body.  The
    call carries the identifier and the payload of the request and asks
    for the updated document. *)
Theorem update_maps_store_result
    (S : Type) (exec : forall A, StoreOp A -> S -> Settled A * S)
    (s : S) (id : string) (payload : Doc)
    (id' : string) (payload' : Doc) (new : bool) (updated : option Doc) :
  In (EvFindByIdAndUpdate id' payload' new (Fulfilled updated))
     (trace_of exec (PostsCtrl.update id payload) s) ->
  let reply := reply_of exec (PostsCtrl.update id payload) s in
  (id' = id /\ payload' = payload /\ new = true) /\
  match updated with
  | None => http_status reply = 404 /\ http_body reply = None
  | Some post => http_status reply = 200 /\ http_body reply = Some (BodyPost post)
  end.
Proof.
  unfold trace_of, reply_of, PostsCtrl.update. cbn [run event_of].
  destruct (exec _ (findByIdAndUpdate id payload true) s) as [[[post|]|e] s1];
    cbn [run fst snd]; intros [Hev|[]]; inversion Hev; subst; repeat split.
Qed.

Lemma update_maps_store_result_witness :
  let missing_id := "0000000000000000000000ff" in
  let payload : Doc := {[ "title" := JStr "new" ]} in
  In (EvFindByIdAndUpdate missing_id payload true (Fulfilled None))
     (trace_of Mongo.exec (PostsCtrl.update missing_id payload) one_post_store) /\
  http_status (reply_of Mongo.exec (PostsCtrl.update missing_id payload) one_post_store) = 404 /\
  http_body (reply_of Mongo.exec (PostsCtrl.update missing_id payload) one_post_store) = None.
Proof.
  intros missing_id payload.
  assert (Hin : In (EvFindByIdAndUpdate missing_id payload true (Fulfilled None))
     (trace_of Mongo.exec (PostsCtrl.update missing_id payload) one_post_store))
    by (left; reflexivity).
  split; [exact Hin|].
  exact (proj2 (update_maps_store_result _ Mongo.exec one_post_store missing_id payload
                  missing_id payload true None Hin)).
Defined.

(** ** All routes *)

(** The shape of a run of [write]. *)
Lemma write_runs {S : Type} (exec : forall A, StoreOp A -> S -> Settled A * S)
    (s : S) (payload : Doc) :
  run exec (PostsCtrl.write payload) s = (Responded (set_status 400 ctx0), s, []) \/
  (exists fields post s1,
      run exec (PostsCtrl.write payload) s
      = (Responded (set_body (BodyPost post) ctx0), s1, [EvSave fields (Fulfilled post)])) \/
  (exists fields e s1,
      run exec (PostsCtrl.write payload) s = (Threw 500 e, s1, [EvSave fields (Rejected e)])).
Proof.
  unfold PostsCtrl.write.
  destruct (validate PostsCtrl.write_schema payload); [left; reflexivity|right].
  cbn [run event_of].
  match goal with |- context [exec _ (save ?d) s] =>
    destruct (exec _ (save d) s) as [[post|e] s1] end; cbn [run];
    [left|right]; eexists _, _, _; reflexivity.
Qed.

(** The shape of a run of [read]. *)
Lemma read_runs {S : Type} (exec : forall A, StoreOp A -> S -> Settled A * S)
    (s : S) (id : string) (payload : Doc) :
  (exists error,
      run exec (PostsCtrl.read id payload) s
      = (Responded (set_body (BodyError error) (set_status 400 ctx0)), s, [])) \/
  (exists s1,
      run exec (PostsCtrl.read id payload) s
      = (Responded (set_status 404 ctx0), s1, [EvFindById id (Fulfilled None)])) \/
  (exists post s1,
      run exec (PostsCtrl.read id payload) s
      = (Responded (set_body (BodyPost post) ctx0), s1,
         [EvFindById id (Fulfilled (Some post))])) \/
  (exists e s1,
      run exec (PostsCtrl.read id payload) s = (Threw 500 e, s1, [EvFindById id (Rejected e)])).
Proof.
  unfold PostsCtrl.read.
  destruct (validate PostsCtrl.read_schema payload); [left; eexists; reflexivity|right].
  cbn [run event_of].
  destruct (exec _ (findById id) s) as [[[post|]|e] s1]; cbn [run].
  - right. left. eexists _, _. reflexivity.
  - left. eexists. reflexivity.
  - right. right. eexists _, _. reflexivity.
Qed.

(** The shape of a run of [remove]. *)
Lemma remove_runs {S : Type} (exec : forall A, StoreOp A -> S -> Settled A * S)
    (s : S) (id : string) :
  (exists removed s1,
      run exec (PostsCtrl.remove id) s
      = (Responded (set_status 204 ctx0), s1, [EvFindByIdAndRemove id (Fulfilled removed)])) \/
  (exists e s1,
      run exec (PostsCtrl.remove id) s
      = (Threw 500 e, s1, [EvFindByIdAndRemove id (Rejected e)])).
Proof.
  unfold PostsCtrl.remove. cbn [run event_of].
  destruct (exec _ (findByIdAndRemove id) s) as [[removed|e] s1]; cbn [run];
    [left|right]; eexists _, _; reflexivity.
Qed.

(** The shape of a run of [update]. *)
Lemma update_runs {S : Type} (exec : forall A, StoreOp A -> S -> Settled A * S)
    (s : S) (id : string) (payload : Doc) :
  (exists s1,
      run exec (PostsCtrl.update id payload) s
      = (Responded (set_status 404 ctx0), s1,
         [EvFindByIdAndUpdate id payload true (Fulfilled None)])) \/
  (exists post s1,
      run exec (PostsCtrl.update id payload) s
      = (Responded (set_body (BodyPost post) ctx0), s1,
         [EvFindByIdAndUpdate id payload true (Fulfilled (Some post))])) \/
  (exists e s1,
      run exec (PostsCtrl.update id payload) s
      = (Threw 500 e, s1, [EvFindByIdAndUpdate id payload true (Rejected e)])).
Proof.
  unfold PostsCtrl.update. cbn [run event_of].
  destruct (exec _ (findByIdAndUpdate id payload true) s) as [[[post|]|e] s1]; cbn [run].
  - right. left. eexists _, _. reflexivity.
  - left. eexists. reflexivity.
  - right. right. eexists _, _. reflexivity.
Qed.

Ltac use_run H :=
  unfold reply_of, trace_of, store_after; rewrite H; cbn [fst snd].

(** X9.  On every route, a store call that is rejected ends the
    request: the handler throws a 500 carrying the store's error, and
    the rejected call is the last one made. *)
Theorem store_rejection_ends_request
    (isValid : string -> bool)
    (S : Type) (exec : forall A, StoreOp A -> S -> Settled A * S)
    (s : S) (req : Router.Request) (ev : Event) (err : JsError) :
  In ev (trace_of exec (Router.handle isValid req) s) ->
  rejection ev = Some err ->
  reply_of exec (Router.handle isValid req) s = Threw 500 err /\
  exists before, trace_of exec (Router.handle isValid req) s = (before ++ [ev])%list.
Proof.
  assert (Hguard : forall id next,
    (In ev (trace_of exec next s) -> rejection ev = Some err ->
     reply_of exec next s = Threw 500 err /\
     exists before, trace_of exec next s = (before ++ [ev])%list) ->
    In ev (trace_of exec (PostsCtrl.checkObjectId isValid id next) s) ->
    rejection ev = Some err ->
    reply_of exec (PostsCtrl.checkObjectId isValid id next) s = Threw 500 err /\
    exists before,
      trace_of exec (PostsCtrl.checkObjectId isValid id next) s = (before ++ [ev])%list).
  { intros id next Hnext. unfold PostsCtrl.checkObjectId.
    destruct (isValid id); cbn [negb]; [exact Hnext|intros []]. }
  destruct req as [payload|query_page|id payload|id|id payload]; cbn [Router.handle];
    try apply Hguard.
  - destruct (write_runs exec s payload)
      as [Hrun | [(fields & post & s1 & Hrun) | (fields & e & s1 & Hrun)]];
      use_run Hrun; (intros [<-|[]] || intros []); cbn [rejection]; intros Herr;
      inversion Herr; subst. split; [reflexivity|exists []; reflexivity].
  - destruct (list_runs exec s query_page)
      as [[-> ->] | [(q & e & -> & ->) | [(q & posts & e & -> & ->)
         | [(q & n & -> & _) | (q & posts & n & msg & _ & -> & _)]]]].
    + intros [].
    + intros [<-|[]]; cbn [rejection]; intros Herr; inversion Herr; subst.
      split; [reflexivity|exists []; reflexivity].
    + intros [<-|[<-|[]]]; cbn [rejection]; intros Herr; inversion Herr; subst.
      split; [reflexivity|]. eexists [_]. reflexivity.
    + intros [<-|[<-|[]]]; cbn [rejection]; discriminate.
    + intros [<-|[<-|[]]]; cbn [rejection]; discriminate.
  - destruct (read_runs exec s id payload)
      as [(error & Hrun) | [(s1 & Hrun) | [(post & s1 & Hrun) | (e & s1 & Hrun)]]];
      use_run Hrun; (intros [<-|[]] || intros []); cbn [rejection]; intros Herr;
      inversion Herr; subst. split; [reflexivity|exists []; reflexivity].
  - destruct (remove_runs exec s id)
      as [(removed & s1 & Hrun) | (e & s1 & Hrun)];
      use_run Hrun; intros [<-|[]]; cbn [rejection]; intros Herr;
      inversion Herr; subst. split; [reflexivity|exists []; reflexivity].
  - destruct (update_runs exec s id payload)
      as [(s1 & Hrun) | [(post & s1 & Hrun) | (e & s1 & Hrun)]];
      use_run Hrun; intros [<-|[]]; cbn [rejection]; intros Herr;
      inversion Herr; subst. split; [reflexivity|exists []; reflexivity].
Qed.

(** X10.  The status codes of the routes: creating and listing answer
    200, 400 or 500; reading and updating answer 200, 400, 404 or 500;
    removing answers 204, 400 or 500. *)
Theorem route_status_codes
    (isValid : string -> bool)
    (S : Type) (exec : forall A, StoreOp A -> S -> Settled A * S)
    (s : S) (req : Router.Request) :
  In (http_status (reply_of exec (Router.handle isValid req) s)) (route_statuses req).
Proof.
  destruct req as [payload|query_page|id payload|id|id payload];
    cbn [Router.handle route_statuses]; unfold PostsCtrl.checkObjectId;
    try (destruct (isValid id); cbn [negb]; [|cbn; auto]).
  - destruct (write_runs exec s payload)
      as [Hrun | [(fields & post & s1 & Hrun) | (fields & e & s1 & Hrun)]];
      use_run Hrun; cbn; auto.
  - destruct (list_runs exec s query_page)
      as [[-> _] | [(q & e & _ & ->) | [(q & posts & e & _ & ->)
         | [(q & n & _ & ->) | (q & posts & n & msg & _ & _ & ->)]]]]; cbn; auto.
  - destruct (read_runs exec s id payload)
      as [(error & Hrun) | [(s1 & Hrun) | [(post & s1 & Hrun) | (e & s1 & Hrun)]]];
      use_run Hrun; cbn; auto.
  - destruct (remove_runs exec s id)
      as [(removed & s1 & Hrun) | (e & s1 & Hrun)]; use_run Hrun; cbn; auto.
  - destruct (update_runs exec s id payload)
      as [(s1 & Hrun) | [(post & s1 & Hrun) | (e & s1 & Hrun)]];
      use_run Hrun; cbn; auto.
Qed.

(** X11.  The two GET routes only ever query the store: every store
    call they make is a find, a count or a findById. *)
Theorem get_routes_only_query
    (isValid : string -> bool)
    (S : Type) (exec : forall A, StoreOp A -> S -> Settled A * S) (s : S) :
  (forall query_page,
      forallb is_query (trace_of exec (Router.handle isValid (Router.GET_posts query_page)) s)
      = true) /\
  (forall id payload,
      forallb is_query (trace_of exec (Router.handle isValid (Router.GET_post id payload)) s)
      = true).
Proof.
  split.
  - intros query_page. cbn [Router.handle].
    destruct (list_runs exec s query_page)
      as [[_ ->] | [(q & e & -> & _) | [(q & posts & e & -> & _)
         | [(q & n & -> & _) | (q & posts & n & msg & _ & -> & _)]]]]; reflexivity.
  - intros id payload. cbn [Router.handle]. unfold PostsCtrl.checkObjectId.
    destruct (isValid id); cbn [negb]; [|reflexivity].
    destruct (read_runs exec s id payload)
      as [(error & Hrun) | [(s1 & Hrun) | [(post & s1 & Hrun) | (e & s1 & Hrun)]]];
      use_run Hrun; reflexivity.
Qed.

Lemma store_rejection_ends_request_witness :
  let req := Router.GET_posts (Some "abc") in
  let ev := EvFind {| sort_id := -1; limit := 10; skip := NaN; lean := true |}
              (Rejected (StoreError "skip")) in
  In ev (trace_of Mongo.exec (Router.handle Mongo.ObjectId_isValid req) one_post_store) /\
  rejection ev = Some (StoreError "skip") /\
  reply_of Mongo.exec (Router.handle Mongo.ObjectId_isValid req) one_post_store
    = Threw 500 (StoreError "skip") /\
  exists before,
    trace_of Mongo.exec (Router.handle Mongo.ObjectId_isValid req) one_post_store
    = (before ++ [ev])%list.
Proof.
  intros req ev.
  assert (Hin : In ev (trace_of Mongo.exec (Router.handle Mongo.ObjectId_isValid req)
                         one_post_store)) by (left; reflexivity).
  split; [exact Hin|]. split; [reflexivity|].
  exact (store_rejection_ends_request Mongo.ObjectId_isValid _ Mongo.exec one_post_store
           req ev (StoreError "skip") Hin eq_refl).
Defined.

(** ** The handlers on the reference store *)

Lemma is_hex_hex_digit (d : N) : (d < 16)%N -> Mongo.is_hex (Mongo.hex_digit d) = true.
Proof.
  intros Hd. destruct d as [|p]; [reflexivity|].
  do 5 (try destruct p as [p|p|]); try reflexivity; lia.
Qed.

Lemma hex_digits_length (width : nat) (n : N) (acc : string) :
  String.length (Mongo.hex_digits width n acc) = (width + String.length acc)%nat.
Proof.
  revert n acc. induction width as [|w IH]; intros n acc; cbn [Mongo.hex_digits].
  - reflexivity.
  - rewrite IH. cbn [String.length]. lia.
Qed.

Lemma hex_digits_all_hex (width : nat) (n : N) (acc : string) :
  Mongo.all_hex acc = true -> Mongo.all_hex (Mongo.hex_digits width n acc) = true.
Proof.
  revert n acc. induction width as [|w IH]; intros n acc Hacc; cbn [Mongo.hex_digits].
  - exact Hacc.
  - apply IH. cbn [Mongo.all_hex]. rewrite Hacc, is_hex_hex_digit; [reflexivity|].
    apply N.mod_lt. discriminate.
Qed.

(** Every identifier the reference store assigns passes its format
    check. *)
Lemma ObjectId_hex_valid (n : N) : Mongo.ObjectId_isValid (Mongo.ObjectId_hex n) = true.
Proof.
  unfold Mongo.ObjectId_isValid, Mongo.ObjectId_hex.
  rewrite hex_digits_length, hex_digits_all_hex by reflexivity. reflexivity.
Qed.

Lemma lookup_doc_None (id : string) (l : list (string * Doc)) :
  Mongo.lookup_doc id l = None <-> ~ In id (map fst l).
Proof.
  induction l as [|[i d] rest IH]; cbn [Mongo.lookup_doc map fst In].
  - split; auto.
  - destruct (String.eqb_spec i id) as [->|Hne].
    + split; [discriminate|]. intros H. exfalso. apply H. left. reflexivity.
    + rewrite IH. split; [intros H [Heq|Hin]; auto|intros H Hin; apply H; right; exact Hin].
Qed.

Lemma lookup_doc_app_new (id : string) (d : Doc) (l : list (string * Doc)) :
  Mongo.lookup_doc id l = None ->
  Mongo.lookup_doc id (l ++ [(id, d)]) = Some d.
Proof.
  induction l as [|[i e] rest IH]; cbn [Mongo.lookup_doc app].
  - intros _. rewrite String.eqb_refl. reflexivity.
  - destruct (String.eqb i id); [discriminate|exact IH].
Qed.

Lemma lookup_delete_doc_eq (id : string) (l : list (string * Doc)) :
  NoDup (map fst l) -> Mongo.lookup_doc id (Mongo.delete_doc id l) = None.
Proof.
  induction l as [|[i d] rest IH]; cbn [Mongo.delete_doc Mongo.lookup_doc map fst];
    [reflexivity|].
  intros Hnodup. apply NoDup_cons in Hnodup as [Hnotin Hnodup].
  destruct (String.eqb_spec i id) as [->|Hne].
  - apply lookup_doc_None. intros Hin. apply Hnotin, list_elem_of_In, Hin.
  - cbn [Mongo.lookup_doc]. destruct (String.eqb_spec i id); [contradiction|].
    apply IH, Hnodup.
Qed.

Lemma lookup_delete_doc_ne (id id' : string) (l : list (string * Doc)) :
  id' <> id -> Mongo.lookup_doc id' (Mongo.delete_doc id l) = Mongo.lookup_doc id' l.
Proof.
  intros Hne.
  induction l as [|[i d] rest IH]; cbn [Mongo.delete_doc Mongo.lookup_doc]; [reflexivity|].
  destruct (String.eqb_spec i id) as [->|Hi].
  - destruct (String.eqb_spec id id'); [congruence|reflexivity].
  - cbn [Mongo.lookup_doc]. rewrite IH. reflexivity.
Qed.

(** X12.  Round trip on the reference store: after an accepted create
    request, whose reply is a 200 with the payload under a new
    identifier, a read of that identifier answers 200 with the same
    post, and the store holds one post more.  The identifier the store
    assigns is assumed unused. *)
Theorem write_then_read (s : Mongo.State) (payload : Doc) :
  validate PostsCtrl.write_schema payload = None ->
  Mongo.lookup_doc (Mongo.ObjectId_hex (Mongo.next_id s)) (Mongo.docs s) = None ->
  let id := Mongo.ObjectId_hex (Mongo.next_id s) in
  let post := Mongo.as_post (id, payload) in
  let created := Router.handle Mongo.ObjectId_isValid (Router.POST_posts payload) in
  let s' := store_after Mongo.exec created s in
  let fetched := Router.handle Mongo.ObjectId_isValid (Router.GET_post id ∅) in
  http_status (reply_of Mongo.exec created s) = 200 /\
  http_body (reply_of Mongo.exec created s) = Some (BodyPost post) /\
  http_status (reply_of Mongo.exec fetched s') = 200 /\
  http_body (reply_of Mongo.exec fetched s') = Some (BodyPost post) /\
  length (Mongo.docs s') = Datatypes.S (length (Mongo.docs s)).
Proof.
  intros Hok Hfresh id post created s' fetched.
  assert (Hrun : run Mongo.exec created s
    = (Responded (set_body (BodyPost post) ctx0),
       {| Mongo.docs := Mongo.docs s ++ [(id, payload)];
          Mongo.next_id := N.succ (Mongo.next_id s) |},
       [EvSave payload (Fulfilled post)])).
  { unfold created. cbn [Router.handle]. unfold PostsCtrl.write. rewrite Hok.
    rewrite (write_post_is_payload payload Hok). reflexivity. }
  assert (Hs' : s' = {| Mongo.docs := Mongo.docs s ++ [(id, payload)];
                        Mongo.next_id := N.succ (Mongo.next_id s) |}).
  { unfold s', store_after. rewrite Hrun. reflexivity. }
  assert (Hfetch : run Mongo.exec fetched s'
    = (Responded (set_body (BodyPost post) ctx0), s', [EvFindById id (Fulfilled (Some post))])).
  { unfold fetched. cbn [Router.handle].
    rewrite checkObjectId_valid by apply ObjectId_hex_valid.
    unfold PostsCtrl.read.
    change (validate PostsCtrl.read_schema ∅) with (@None ValidationError).
    assert (Hlookup : Mongo.lookup_doc id (Mongo.docs s') = Some payload)
      by (rewrite Hs'; apply lookup_doc_app_new, Hfresh).
    cbn [run Mongo.exec event_of]. rewrite Hlookup.
    cbn [fmap option_fmap option_map run]. reflexivity. }
  unfold reply_of. rewrite Hrun, Hfetch. cbn [fst snd].
  repeat split. rewrite Hs'. cbn [Mongo.docs]. rewrite length_app. cbn. lia.
Qed.

Lemma write_then_read_witness :
  let id := Mongo.ObjectId_hex 1 in
  let post := Mongo.as_post (id, hello_post) in
  let created := Router.handle Mongo.ObjectId_isValid (Router.POST_posts hello_post) in
  let s' := store_after Mongo.exec created one_post_store in
  let fetched := Router.handle Mongo.ObjectId_isValid (Router.GET_post id ∅) in
  validate PostsCtrl.write_schema hello_post = None /\
  Mongo.lookup_doc id (Mongo.docs one_post_store) = None /\
  http_status (reply_of Mongo.exec created one_post_store) = 200 /\
  http_body (reply_of Mongo.exec created one_post_store) = Some (BodyPost post) /\
  http_status (reply_of Mongo.exec fetched s') = 200 /\
  http_body (reply_of Mongo.exec fetched s') = Some (BodyPost post) /\
  length (Mongo.docs s') = Datatypes.S (length (Mongo.docs one_post_store)).
Proof.
  intros id post created s' fetched.
  split; [reflexivity|]. split; [reflexivity|].
  apply (write_then_read one_post_store hello_post); reflexivity.
Defined.

(** X13.  On the reference store with distinct identifiers, a remove
    request with a well-formed identifier answers 204, whether or not
    the post exists; a read of the same identifier afterwards answers
    404, and every other post is still found as before. *)
Theorem remove_then_read_not_found
    (isValid : string -> bool) (s : Mongo.State) (id : string) :
  isValid id = true ->
  NoDup (stored_ids s) ->
  let removed := Router.handle isValid (Router.DELETE_post id) in
  let s' := store_after Mongo.exec removed s in
  http_status (reply_of Mongo.exec removed s) = 204 /\
  http_status (reply_of Mongo.exec (Router.handle isValid (Router.GET_post id ∅)) s') = 404 /\
  (forall id', id' <> id ->
     Mongo.lookup_doc id' (Mongo.docs s') = Mongo.lookup_doc id' (Mongo.docs s)).
Proof.
  intros Hid Hnodup removed s'.
  assert (Hs' : s' = {| Mongo.docs := Mongo.delete_doc id (Mongo.docs s);
                        Mongo.next_id := Mongo.next_id s |}).
  { unfold s', removed, store_after. cbn [Router.handle].
    rewrite checkObjectId_valid by exact Hid. reflexivity. }
  split; [|split].
  - unfold removed, reply_of. cbn [Router.handle].
    rewrite checkObjectId_valid by exact Hid. reflexivity.
  - unfold reply_of. cbn [Router.handle].
    rewrite checkObjectId_valid by exact Hid.
    unfold PostsCtrl.read.
    change (validate PostsCtrl.read_schema ∅) with (@None ValidationError).
    assert (Hlookup : Mongo.lookup_doc id (Mongo.docs s') = None)
      by (rewrite Hs'; apply lookup_delete_doc_eq, Hnodup).
    cbn [run Mongo.exec event_of]. rewrite Hlookup. reflexivity.
  - intros id' Hne. rewrite Hs'. apply lookup_delete_doc_ne, Hne.
Qed.

Lemma remove_then_read_not_found_witness :
  let removed := Router.handle Mongo.ObjectId_isValid (Router.DELETE_post hello_id) in
  let s' := store_after Mongo.exec removed one_post_store in
  Mongo.ObjectId_isValid hello_id = true /\
  NoDup (stored_ids one_post_store) /\
  http_status (reply_of Mongo.exec removed one_post_store) = 204 /\
  http_status (reply_of Mongo.exec
                 (Router.handle Mongo.ObjectId_isValid (Router.GET_post hello_id ∅)) s') = 404 /\
  (forall id', id' <> hello_id ->
     Mongo.lookup_doc id' (Mongo.docs s') = Mongo.lookup_doc id' (Mongo.docs one_post_store)).
Proof.
  intros removed s'.
  assert (Hnodup : NoDup (stored_ids one_post_store))
    by (apply NoDup_singleton).
  split; [reflexivity|]. split; [exact Hnodup|].
  exact (remove_then_read_not_found Mongo.ObjectId_isValid one_post_store hello_id eq_refl Hnodup).
Defined.

(** A list request leaves the reference store as it was. *)
Lemma list_keeps_store (s : Mongo.State) (query_page : option string) :
  store_after Mongo.exec (PostsCtrl.list query_page) s = s.
Proof.
  unfold store_after, PostsCtrl.list.
  destruct (num_lt _ _); [reflexivity|].
  cbn [run Mongo.exec].
  destruct (Mongo.find _ s) as [posts|e]; [|reflexivity].
  cbn [run Mongo.exec].
  destruct (Array_map PostsCtrl.render_post posts); reflexivity.
Qed.

(** A read request leaves the reference store as it was. *)
Lemma read_keeps_store (s : Mongo.State) (id : string) (payload : Doc) :
  store_after Mongo.exec (PostsCtrl.read id payload) s = s.
Proof.
  unfold store_after, PostsCtrl.read.
  destruct (validate PostsCtrl.read_schema payload); [reflexivity|].
  cbn [run Mongo.exec].
  destruct (Mongo.lookup_doc id (Mongo.docs s)); reflexivity.
Qed.

(** X14.  On the reference store only a create, update or remove
    request that is answered 200 or 204 changes anything: the two GET
    routes, and every request answered with another status, leave the
    store exactly as it was. *)
Theorem only_success_changes_store
    (isValid : string -> bool) (s : Mongo.State) (req : Router.Request) :
  match req with
  | Router.GET_posts _ | Router.GET_post _ _ => True
  | _ =>
      http_status (reply_of Mongo.exec (Router.handle isValid req) s) <> 200 /\
      http_status (reply_of Mongo.exec (Router.handle isValid req) s) <> 204
  end ->
  store_after Mongo.exec (Router.handle isValid req) s = s.
Proof.
  destruct req as [payload|query_page|id payload|id|id payload]; cbn [Router.handle];
    unfold PostsCtrl.checkObjectId;
    try (destruct (isValid id); cbn [negb]; [|intros _; reflexivity]).
  - unfold reply_of, store_after, PostsCtrl.write.
    destruct (validate PostsCtrl.write_schema payload); [reflexivity|].
    cbn. intros [H _]. contradiction.
  - intros _. apply list_keeps_store.
  - intros _. apply read_keeps_store.
  - unfold reply_of, store_after, PostsCtrl.remove. cbn. intros [_ H]. contradiction.
  - unfold reply_of, store_after, PostsCtrl.update. cbn [run Mongo.exec].
    destruct (Mongo.lookup_doc id (Mongo.docs s)); [|reflexivity].
    cbn. intros [H _]. contradiction.
Qed.

Lemma only_success_changes_store_witness :
  let req := Router.PATCH_post "0000000000000000000000ff" {[ "title" := JStr "new" ]} in
  (http_status (reply_of Mongo.exec (Router.handle Mongo.ObjectId_isValid req) one_post_store)
     <> 200 /\
   http_status (reply_of Mongo.exec (Router.handle Mongo.ObjectId_isValid req) one_post_store)
     <> 204) /\
  store_after Mongo.exec (Router.handle Mongo.ObjectId_isValid req) one_post_store
    = one_post_store.
Proof.
  intros req.
  assert (Hst : http_status (reply_of Mongo.exec (Router.handle Mongo.ObjectId_isValid req)
                               one_post_store) <> 200 /\
                http_status (reply_of Mongo.exec (Router.handle Mongo.ObjectId_isValid req)
                               one_post_store) <> 204)
    by (split; discriminate).
  split; [exact Hst|].
  exact (only_success_changes_store Mongo.ObjectId_isValid one_post_store req Hst).
Defined.
